(** * Confectionary sales analysis: cleaning and aggregation pipeline

    A shallow embedding of [data_visualisation_confectionary.py]
    (sections 3 and 5 of the script: "Clean & Prepare Data" and
    "Analysis - Profit & Revenue Insights", and the loop of section 8 that
    builds the traces of the dashboard figure), and the properties of the
    cleaning pipeline, of the three aggregates and of the traces.

    - Python strings are lists of Unicode code points.
    - float64 values are [spec_float] (IEEE 754 binary64, round to nearest
      even) with the operations of the standard library's [SpecFloat].
    - A [DataFrame] is a list of column labels and a list of rows, each row a
      list of cells; every pandas call that can raise is a computation in
      the [result] monad.
    - Two library routines are parameters: the sorting algorithm behind
      [sort_values] (any [Sorter]), and the parser behind [pd.to_datetime]
      for values that are not timestamps yet. *)

From Stdlib Require Import ZArith NArith List Bool Ascii String Lia.
From Stdlib Require Import Sorting.Sorted Sorting.Permutation.
From Stdlib Require Import Floats.SpecFloat.
From stdpp Require Import base list.

Open Scope N_scope.
Open Scope Z_scope.
Open Scope nat_scope.

(** ** Python [str] *)

Module PyStr.

(** A Python string, as its code points. *)
Abbreviation pystr := (list N).

(** An ASCII literal. *)
Definition py (s : string) : pystr := map N_of_ascii (list_ascii_of_string s).

(** U+00A3 POUND SIGN. *)
Definition pound_sign : N := 163%N.

(** [str.isspace] on one code point: the characters [str.strip()] removes
      when called without argument. *)
Definition isspace (c : N) : bool :=
    ((9 <=? c) && (c <=? 13) || (28 <=? c) && (c <=? 32)
     || (c =? 133) || (c =? 160) || (c =? 5760)
     || (8192 <=? c) && (c <=? 8202)
     || (c =? 8232) || (c =? 8233) || (c =? 8239) || (c =? 8287)
     || (c =? 12288))%N.

Fixpoint lstrip (s : pystr) : pystr :=
    match s with
    | c :: s' => if isspace c then lstrip s' else s
    | [] => []
    end.

Definition rstrip (s : pystr) : pystr := rev (lstrip (rev s)).

(** [s.strip()] *)
Definition strip (s : pystr) : pystr := rstrip (lstrip s).

Fixpoint startswith (s old : pystr) : bool :=
    match old, s with
    | [], _ => true
    | _ :: _, [] => false
    | a :: old', c :: s' => (a =? c)%N && startswith s' old'
    end.

(** Left-to-right scan of [s.replace(old, new)] for a non-empty [old]:
      [skip] counts the characters of the current match still to pass. *)
Fixpoint replace_scan (old new : pystr) (skip : nat) (s : pystr) : pystr :=
    match s with
    | [] => []
    | c :: s' =>
        match skip with
        | S k => replace_scan old new k s'
        | O =>
            if startswith s old
            then new ++ replace_scan old new (length old - 1) s'
            else c :: replace_scan old new 0 s'
        end
    end.

(** [s.replace(old, new)]: every non-overlapping occurrence, leftmost
      first.  An empty [old] matches before every character and at the end. *)
Definition replace (old new s : pystr) : pystr :=
    match old with
    | [] => concat (map (fun c => new ++ [c]) s) ++ new
    | _ :: _ => replace_scan old new 0 s
    end.

Definition is_paren (c : N) : bool := ((c =? 40) || (c =? 41))%N.

(** [re.sub(r"[\(\)]", "", s)] *)
Definition remove_parens (s : pystr) : pystr :=
    List.filter (fun c => negb (is_paren c)) s.

Fixpoint eqb (s t : pystr) : bool :=
    match s, t with
    | [], [] => true
    | a :: s', b :: t' => (a =? b)%N && eqb s' t'
    | _, _ => false
    end.

(** Python's [<=] on strings: lexicographic on code points. *)
Fixpoint leb (s t : pystr) : bool :=
    match s, t with
    | [], _ => true
    | _ :: _, [] => false
    | a :: s', b :: t' =>
        if (a <? b)%N then true else if (b <? a)%N then false else leb s' t'
    end.

End PyStr.
Import PyStr.

(** ** Column-name cleaning (script lines 22-27) *)

(** [df.columns.str.strip().str.replace(" ", "_").str.replace("(£)", "GBP")
      .str.replace(r"[\(\)]", "", regex=True)], on one label.  The first two
    replacements are literal ([regex=False], the default since pandas 2.0). *)
Definition clean_column_name (c : pystr) : pystr :=
  remove_parens
    (replace (py "(" ++ [pound_sign] ++ py ")") (py "GBP")
       (replace (py " ") (py "_") (strip c))).

(** The same under pandas 1.x, where [regex=True] was the default: the
    pattern [(£)] is a group that matches the pound sign alone (a pattern of
    one character, as [" "], is literal there too). *)
Definition clean_column_name_regex (c : pystr) : pystr :=
  remove_parens
    (replace [pound_sign] (py "GBP") (replace (py " ") (py "_") (strip c))).

(** The column labels of the workbook the script is written for. *)
Definition source_columns : list pystr :=
  [ py "Date"; py "Confectionary"; py "CountryUK"; py "Units Sold";
    py "Revenue(" ++ [pound_sign] ++ py ")";
    py "Profit(" ++ [pound_sign] ++ py ")" ].


(** ** float64 *)

Module F64.

Abbreviation float64 := spec_float.

Definition prec : Z := 53.
Definition emax : Z := 1024.

Definition add : float64 -> float64 -> float64 := SFadd prec emax.
Definition mul : float64 -> float64 -> float64 := SFmul prec emax.
Definition div : float64 -> float64 -> float64 := SFdiv prec emax.

(** The float64 nearest to an integer. *)
Definition of_Z (z : Z) : float64 := binary_normalize prec emax z 0 false.

Definition nan : float64 := S754_nan.
Definition zero : float64 := S754_zero false.

Definition is_nan (x : float64) : bool :=
  match x with S754_nan => true | _ => false end.

Definition is_zero (x : float64) : bool :=
  match x with S754_zero _ => true | _ => false end.

(** Equality of the hash tables behind [duplicated] and [groupby]:
    IEEE [==] (so [0.0 == -0.0]), and all NaN equal to each other. *)
Definition eqb (x y : float64) : bool :=
  is_nan x && is_nan y || SFeqb x y.

(** IEEE [<=]; false as soon as one side is NaN. *)
Definition leb : float64 -> float64 -> bool := SFleb.

(** The entries that are not NaN. *)
Definition observed (xs : list float64) : list float64 :=
  List.filter (fun x => negb (is_nan x)) xs.

(** Accumulation in row order from [0.0].  (The grouped kernels of pandas
    carry a compensation term along; it changes no sum that is exact, as
    the sums of the examples are.) *)
Definition sum (xs : list float64) : float64 := fold_left add xs zero.

(** Sum over count; NaN when there is nothing to average. *)
Definition mean (xs : list float64) : float64 :=
  match xs with
  | [] => nan
  | _ :: _ => div (sum xs) (of_Z (Z.of_nat (length xs)))
  end.

(** [sum] and [mean] with [skipna=True]: NaN entries are passed over. *)
Definition sum_skipna (xs : list float64) : float64 := sum (observed xs).
Definition mean_skipna (xs : list float64) : float64 := mean (observed xs).

End F64.
Import F64.

(** ** Timestamps *)

Inductive month :=
  | January | February | March | April | May | June
  | July | August | September | October | November | December.

Definition month_number (m : month) : Z :=
  match m with
  | January => 1 | February => 2 | March => 3 | April => 4
  | May => 5 | June => 6 | July => 7 | August => 8
  | September => 9 | October => 10 | November => 11 | December => 12
  end.

(** [Timestamp.month_name()] *)
Definition month_name (m : month) : pystr :=
  match m with
  | January => py "January" | February => py "February"
  | March => py "March" | April => py "April" | May => py "May"
  | June => py "June" | July => py "July" | August => py "August"
  | September => py "September" | October => py "October"
  | November => py "November" | December => py "December"
  end.

(** A [pandas.Timestamp], by its calendar fields; [ts_nanos] counts the
    nanoseconds since midnight.  Chronological order is the lexicographic
    order of the fields. *)
Record Timestamp := mkTimestamp {
  ts_year : Z;
  ts_month : month;
  ts_day : Z;
  ts_nanos : Z
}.

(** Lexicographic [<=] on integer tuples. *)
Fixpoint lex_leb (a b : list Z) : bool :=
  match a, b with
  | [], _ => true
  | _ :: _, [] => false
  | x :: a', y :: b' =>
      if (x <? y)%Z then true else if (y <? x)%Z then false else lex_leb a' b'
  end.

Definition ts_fields (t : Timestamp) : list Z :=
  [ts_year t; month_number (ts_month t); ts_day t; ts_nanos t].

Definition ts_leb (t u : Timestamp) : bool := lex_leb (ts_fields t) (ts_fields u).

Definition month_eqb (m n : month) : bool := (month_number m =? month_number n)%Z.

Definition ts_eqb (t u : Timestamp) : bool :=
  (ts_year t =? ts_year u)%Z && month_eqb (ts_month t) (ts_month u)
  && (ts_day t =? ts_day u)%Z && (ts_nanos t =? ts_nanos u)%Z.

(** ** Cells *)

(** The value of one cell of a frame.  A float64 NaN and [NaT] are the
    missing values.  Numbers read from the workbook are float64; [Int] is
    the integer dtype of the derived [Year] column. *)
Inductive cell :=
  | Str (s : pystr)
  | Num (x : float64)
  | Int (z : Z)
  | Time (t : Timestamp)
  | NaT.

(** [pd.isna] *)
Definition isna (c : cell) : bool :=
  match c with
  | Num x => is_nan x
  | NaT => true
  | _ => false
  end.

(** Equality of two cells of one column as [duplicated] and [groupby] see
    it: missing values are equal to each other. *)
Definition cell_eqb (a b : cell) : bool :=
  match a, b with
  | Str s, Str t => PyStr.eqb s t
  | Num x, Num y => F64.eqb x y
  | Int x, Int y => (x =? y)%Z
  | Time t, Time u => ts_eqb t u
  | NaT, NaT => true
  | _, _ => false
  end.

Definition cell_kind (c : cell) : Z :=
  match c with
  | Int _ => 0 | Num _ => 1 | Str _ => 2 | Time _ => 3 | NaT => 4
  end.

(** [<=] between two non-missing cells.  The cells of a column the script
    sorts have one kind; the order of the kinds only makes the comparison
    total. *)
Definition cell_leb (a b : cell) : bool :=
  match a, b with
  | Str s, Str t => PyStr.leb s t
  | Num x, Num y => F64.leb x y
  | Int x, Int y => (x <=? y)%Z
  | Time t, Time u => ts_leb t u
  | _, _ => (cell_kind a <=? cell_kind b)%Z
  end.

Abbreviation row := (list cell).

Fixpoint row_eqb (r s : row) : bool :=
  match r, s with
  | [], [] => true
  | a :: r', b :: s' => cell_eqb a b && row_eqb r' s'
  | _, _ => false
  end.

Fixpoint row_leb (r s : row) : bool :=
  match r, s with
  | [], _ => true
  | _ :: _, [] => false
  | a :: r', b :: s' =>
      if cell_eqb a b then row_leb r' s' else cell_leb a b
  end.

(** ** Exceptions *)

Inductive exn := KeyError | ValueError | TypeError | AttributeError.

Inductive result (A : Type) :=
  | Ok (a : A)
  | Raise (e : exn).
Arguments Ok {A} a.
Arguments Raise {A} e.

#[global] Instance result_ret : MRet result := @Ok.
#[global] Instance result_bind : MBind result :=
  fun A B f m => match m with Ok a => f a | Raise e => Raise e end.

(** ** Sorting *)

(** A sorting algorithm, by what [numpy.sort] promises of every [kind]: the
    result is a rearrangement of the input, in order.  What happens to
    elements that compare equal is left to the algorithm (the default kind
    of [sort_values] is not stable). *)
Class Sorter := {
  sort : forall {A : Type}, (A -> A -> bool) -> list A -> list A;
  sort_perm :
    forall (A : Type) (le : A -> A -> bool) (l : list A),
      Permutation (sort le l) l;
  sort_sorted :
    forall (A : Type) (le : A -> A -> bool),
      (forall a b, le a b = false -> le b a = true) ->
      (forall a b c, le a b = true -> le b c = true -> le a c = true) ->
      forall l : list A, StronglySorted (fun a b => le a b = true) (sort le l)
}.

Section Sort.
Context {A : Type} (le : A -> A -> bool).

Fixpoint insert_sorted (x : A) (l : list A) : list A :=
  match l with
  | [] => [x]
  | y :: l' => if le x y then x :: l else y :: insert_sorted x l'
  end.

(** A stable sort: elements that compare equal keep their order. *)
Definition stable_sort (l : list A) : list A := fold_right insert_sorted [] l.
End Sort.

(** The comparison behind [sort_values(ascending=...)]: missing values go
    last in both directions ([na_position="last"]). *)
Definition na_last_leb (ascending : bool) (a b : cell) : bool :=
  if isna b then true
  else if isna a then false
  else if ascending then cell_leb a b else cell_leb b a.

(** ** Frames *)

Record DataFrame := mkDataFrame {
  columns : list pystr;
  rows : list row
}.

(** A frame is rectangular: every row has one cell per column. *)
Definition rectangular (df : DataFrame) : bool :=
  forallb (fun r => length r =? length (columns df)) (rows df).

(** The cell of a row at a column position.  The default is never read in
    a rectangular frame. *)
Definition cell_at (i : nat) (r : row) : cell := default NaT (r !! i).

Fixpoint positions_from (i : nat) (name : pystr) (cols : list pystr) : list nat :=
  match cols with
  | [] => []
  | c :: cols' =>
      if PyStr.eqb c name
      then i :: positions_from (S i) name cols'
      else positions_from (S i) name cols'
  end.

(** The position of the column that [df[name]] reads.  A label that is not
    there raises [KeyError]; a label carried by several columns selects a
    frame, not a column, on which every use the script makes of the
    selection raises. *)
Definition get_loc (cols : list pystr) (name : pystr) : result nat :=
  match positions_from 0 name cols with
  | [] => Raise KeyError
  | [i] => Ok i
  | _ :: _ :: _ => Raise ValueError
  end.

(** [df[name]], as the function that reads the column in a row. *)
Definition getitem (df : DataFrame) (name : pystr) : result (row -> cell) :=
  i ← get_loc (columns df) name; mret (cell_at i).

Definition set_cells (locs : list nat) (c : cell) (r : row) : row :=
  fold_right (fun i acc => <[i:=c]> acc) r locs.

(** Where the cell of a row goes on [df[name] = value]: a new label is
    appended as the last column, an existing one is overwritten in place (in
    every column that carries it). *)
Definition put_cell (locs : list nat) (c : cell) (r : row) : row :=
  match locs with
  | [] => r ++ [c]
  | _ :: _ => set_cells locs c r
  end.

Definition put_label (locs : list nat) (name : pystr) (cols : list pystr)
  : list pystr :=
  match locs with
  | [] => cols ++ [name]
  | _ :: _ => cols
  end.

(** [df[name] = value], where [value] is computed row by row. *)
Definition setitem (name : pystr) (value : row -> result cell) (df : DataFrame)
  : result DataFrame :=
  let locs := positions_from 0 name (columns df) in
  rs ← mapM (fun r => c ← value r; mret (put_cell locs c r)) (rows df);
  mret {| columns := put_label locs name (columns df); rows := rs |}.

(** Rows of [rs] that equal no earlier row and no row of [seen]. *)
Fixpoint keep_first (seen rs : list row) : list row :=
  match rs with
  | [] => []
  | r :: rs' =>
      if existsb (row_eqb r) seen
      then keep_first seen rs'
      else r :: keep_first (r :: seen) rs'
  end.

(** [df.drop_duplicates()]: of rows equal in all columns, the first stays. *)
Definition drop_duplicates (df : DataFrame) : DataFrame :=
  {| columns := columns df; rows := keep_first [] (rows df) |}.

(** [df.dropna(subset=[name])] *)
Definition dropna (name : pystr) (df : DataFrame) : result DataFrame :=
  i ← get_loc (columns df) name;
  mret {| columns := columns df;
          rows := List.filter (fun r => negb (isna (cell_at i r))) (rows df) |}.

(** The result of [groupby(...)[col].agg()]: one entry per group, the group
    label (one cell per grouping column) and the aggregated value. *)
Abbreviation Series := (list (row * float64)).

Section Script.
Context {sorter : Sorter}.

(** [df.sort_values(name, ascending=...)] *)
Definition sort_values (name : pystr) (ascending : bool) (df : DataFrame)
  : result DataFrame :=
  i ← get_loc (columns df) name;
  mret {| columns := columns df;
          rows := sort
                    (fun r s => na_last_leb ascending (cell_at i r) (cell_at i s))
                    (rows df) |}.

(** [df.head(n)] *)
Definition head (n : nat) (df : DataFrame) : DataFrame :=
  {| columns := columns df; rows := firstn n (rows df) |}.

(** A number as float64, as arithmetic and the numeric aggregates take it. *)
Definition as_float (c : cell) : result float64 :=
  match c with
  | Num x => Ok x
  | Int z => Ok (of_Z z)
  | _ => Raise TypeError
  end.

(** [.dt.year] and [.dt.month_name()], which exist on datetime columns
    only. *)
Definition dt_year (c : cell) : result cell :=
  match c with
  | Time t => Ok (Int (ts_year t))
  | NaT => Ok (Num nan)
  | _ => Raise AttributeError
  end.

Definition dt_month_name (c : cell) : result cell :=
  match c with
  | Time t => Ok (Str (month_name (ts_month t)))
  | NaT => Ok (Num nan)
  | _ => Raise AttributeError
  end.

(** [(profit / revenue) * 100] *)
Definition profit_margin (profit revenue : cell) : result cell :=
  p ← as_float profit;
  r ← as_float revenue;
  mret (Num (mul (div p r) (of_Z 100))).

(** ** Grouped aggregates *)

(** The labels of the groups: the distinct keys without a missing cell
    ([dropna=True]), in sorted order ([sort=True]). *)
Definition group_labels (kx : list (row * float64)) : list row :=
  sort row_leb
    (keep_first []
       (map fst (List.filter (fun p => negb (existsb isna (fst p))) kx))).

Definition group_values (k : row) (kx : list (row * float64)) : list float64 :=
  map snd (List.filter (fun p => row_eqb (fst p) k) kx).

Definition aggregate (agg : list float64 -> float64) (kx : list (row * float64))
  : Series :=
  map (fun k => (k, agg (group_values k kx))) (group_labels kx).

(** [df.groupby(keys)[val].agg()] for a numeric aggregate. *)
Definition groupby_agg (keys : list pystr) (val : pystr)
    (agg : list float64 -> float64) (df : DataFrame) : result Series :=
  ks ← mapM (get_loc (columns df)) keys;
  v ← get_loc (columns df) val;
  kx ← mapM (fun r => x ← as_float (cell_at v r);
                      mret (map (fun i => cell_at i r) ks, x)) (rows df);
  mret (aggregate agg kx).

(** [s.sort_values(ascending=False)] *)
Definition sort_series_desc (s : Series) : Series :=
  sort (fun a b => na_last_leb false (Num (snd a)) (Num (snd b))) s.

(** [s.reset_index()]: the labels become columns again. *)
Definition reset_index (keys : list pystr) (val : pystr) (s : Series) : DataFrame :=
  {| columns := keys ++ [val];
     rows := map (fun p => fst p ++ [Num (snd p)]) s |}.

(** Script lines 56-60. *)
Definition avg_margin (df : DataFrame) : result Series :=
  s ← groupby_agg [py "Confectionary"] (py "Profit_Margin_%") mean_skipna df;
  mret (sort_series_desc s).

(** Script lines 65-69. *)
Definition region_revenue (df : DataFrame) : result Series :=
  s ← groupby_agg [py "CountryUK"] (py "RevenueGBP") sum_skipna df;
  mret (sort_series_desc s).

(** Script lines 74-80. *)
Definition peak_month (df : DataFrame) : result DataFrame :=
  s ← groupby_agg [py "Year"; py "Month"] (py "RevenueGBP") sum_skipna df;
  d ← sort_values (py "RevenueGBP") false
        (reset_index [py "Year"; py "Month"] (py "RevenueGBP") s);
  mret (head 1 d).

(** ** The cleaning pipeline and the script *)

(** The module-level variables of the script that sections 3 and 5 assign. *)
Record Globals := mkGlobals {
  g_df : DataFrame;
  g_avg_margin : option Series;
  g_region_revenue : option Series;
  g_peak_month : option DataFrame
}.

Section Pipeline.

(** What [pd.to_datetime(..., dayfirst=True)] makes of a value that is
      neither a timestamp nor missing (a string, a number); [None] where the
      value does not parse. *)
Variable parse_date : cell -> option Timestamp.

(** [pd.to_datetime(c, dayfirst=True, errors="coerce")] *)
Definition to_datetime (c : cell) : cell :=
    match c with
    | Time t => Time t
    | NaT => NaT
    | _ =>
        if isna c then NaT
        else match parse_date c with
             | Some t => Time t
             | None => NaT
             end
    end.

(** Script lines 22-41. *)
Definition Cleaner (df : DataFrame) : result DataFrame :=
    let df := {| columns := map clean_column_name (columns df);
                 rows := rows df |} in
    date ← getitem df (py "Date");
    df ← setitem (py "Date") (fun r => mret (to_datetime (date r))) df;
    df ← dropna (py "Date") (drop_duplicates df);
    df ← sort_values (py "Date") true df;
    date ← getitem df (py "Date");
    df ← setitem (py "Year") (fun r => dt_year (date r)) df;
    date ← getitem df (py "Date");
    df ← setitem (py "Month") (fun r => dt_month_name (date r)) df;
    profit ← getitem df (py "ProfitGBP");
    revenue ← getitem df (py "RevenueGBP");
    setitem (py "Profit_Margin_%")
      (fun r => profit_margin (profit r) (revenue r)) df.

(** Section 3 of the script: [df] is rebound to the cleaned frame. *)
Definition clean_and_prepare (g : Globals) : result Globals :=
    d ← Cleaner (g_df g);
    mret {| g_df := d;
            g_avg_margin := g_avg_margin g;
            g_region_revenue := g_region_revenue g;
            g_peak_month := g_peak_month g |}.

(** Section 5 of the script, one assignment after the other. *)
Definition assign_avg_margin (g : Globals) : result Globals :=
    s ← avg_margin (g_df g);
    mret {| g_df := g_df g;
            g_avg_margin := Some s;
            g_region_revenue := g_region_revenue g;
            g_peak_month := g_peak_month g |}.

Definition assign_region_revenue (g : Globals) : result Globals :=
    s ← region_revenue (g_df g);
    mret {| g_df := g_df g;
            g_avg_margin := g_avg_margin g;
            g_region_revenue := Some s;
            g_peak_month := g_peak_month g |}.

Definition assign_peak_month (g : Globals) : result Globals :=
    d ← peak_month (g_df g);
    mret {| g_df := g_df g;
            g_avg_margin := g_avg_margin g;
            g_region_revenue := g_region_revenue g;
            g_peak_month := Some d |}.

Definition analysis (g : Globals) : result Globals :=
    g ← assign_avg_margin g;
    g ← assign_region_revenue g;
    assign_peak_month g.

Definition script (g : Globals) : result Globals :=
    g ← clean_and_prepare g;
    analysis g.

End Pipeline.

End Script.

(** ** The stable sort is a sorting algorithm *)

Section SortFacts.
Context {A : Type} (le : A -> A -> bool).

Lemma insert_sorted_perm (x : A) (l : list A) :
  Permutation (insert_sorted le x l) (x :: l).
Proof.
  induction l as [|y l IH]; simpl; [reflexivity|].
  destruct (le x y); [reflexivity|].
  rewrite IH. apply perm_swap.
Qed.

Lemma stable_sort_perm (l : list A) : Permutation (stable_sort le l) l.
Proof.
  induction l as [|x l IH]; simpl; [reflexivity|].
  rewrite insert_sorted_perm. constructor. exact IH.
Qed.

(** A sorted list is left in place. *)
Lemma stable_sort_sorted_id (l : list A) :
  Sorted (fun a b => le a b = true) l -> stable_sort le l = l.
Proof.
  induction 1 as [|x l Hl IH Hx]; [reflexivity|].
  change (stable_sort le (x :: l)) with (insert_sorted le x (stable_sort le l)).
  rewrite IH.
  destruct Hx as [|y l' Hxy]; simpl; [reflexivity|].
  rewrite Hxy. reflexivity.
Qed.

Hypothesis le_total : forall a b, le a b = false -> le b a = true.
Hypothesis le_trans : forall a b c, le a b = true -> le b c = true -> le a c = true.

Lemma insert_sorted_sorted (x : A) (l : list A) :
  StronglySorted (fun a b => le a b = true) l ->
  StronglySorted (fun a b => le a b = true) (insert_sorted le x l).
Proof.
  induction 1 as [|y l Hl IH Hy]; simpl.
  - repeat constructor.
  - destruct (le x y) eqn:Hxy.
    + constructor; [constructor; assumption|].
      constructor; [assumption|].
      eapply Forall_impl; [exact Hy|]. intros z Hz. eapply le_trans; eassumption.
    + constructor; [assumption|].
      rewrite List.Forall_forall. intros z Hz.
      apply (Permutation_in _ (insert_sorted_perm x l)) in Hz.
      destruct Hz as [<-|Hz]; [apply le_total; assumption|].
      rewrite List.Forall_forall in Hy. apply Hy, Hz.
Qed.

Lemma stable_sort_sorted (l : list A) :
  StronglySorted (fun a b => le a b = true) (stable_sort le l).
Proof.
  induction l as [|x l IH]; simpl; [constructor|].
  apply insert_sorted_sorted, IH.
Qed.

End SortFacts.

#[global] Instance stable_sorter : Sorter :=
  {| sort := @stable_sort;
     sort_perm := @stable_sort_perm;
     sort_sorted := @stable_sort_sorted |}.

(** ** Ranks and normal forms, for the proofs *)

(** The position of a float64 that is not NaN in the order of [leb]. *)
Definition f64_rank (x : float64) : list Z :=
  match x with
  | S754_infinity true => [-2]
  | S754_finite true m e => [-1; - e; Z.neg m]
  | S754_zero _ => [0]
  | S754_finite false m e => [1; e; Z.pos m]
  | S754_infinity false => [2]
  | S754_nan => [3]
  end%Z.

(** The position of a cell that is not missing in the order of [cell_leb]. *)
Definition cell_rank (c : cell) : list Z :=
  match c with
  | Int z => [0; z]
  | Num x => 1 :: f64_rank x
  | Str s => 2 :: map Z.of_N s
  | Time t => 3 :: ts_fields t
  | NaT => [4]
  end%Z.

(** The representative of the cells equal to a cell under [cell_eqb]:
    [-0.0] is [0.0]. *)
Definition f64_norm (x : float64) : float64 :=
  match x with
  | S754_zero _ => S754_zero false
  | _ => x
  end.

Definition cell_norm (c : cell) : cell :=
  match c with
  | Num x => Num (f64_norm x)
  | _ => c
  end.

Definition row_norm (r : row) : row := map cell_norm r.

(** The sign bit of a float64. *)
Definition f64_sign (x : float64) : bool :=
  match x with
  | S754_zero s | S754_infinity s | S754_finite s _ _ => s
  | S754_nan => false
  end.

(** ** The stages of the cleaning pipeline, for the proofs *)

Section Stages.
Context {sorter : Sorter}.

(** The rows after script lines 30-36 (dates converted, duplicates and
    missing dates dropped, sorted by date); [d] is the position of [Date]. *)
Definition dated_rows (parse_date : cell -> option Timestamp) (d : nat)
    (rs : list row) : list row :=
  sort (fun r s => na_last_leb true (cell_at d r) (cell_at d s))
    (List.filter (fun r => negb (isna (cell_at d r)))
       (keep_first []
          (map (fun r => <[d := to_datetime parse_date (cell_at d r)]> r) rs))).

(** Script lines 39-41 on one row: [d], [p] and [v] are the positions of
    [Date], [ProfitGBP] and [RevenueGBP]; [ly], [lm] and [lg] the positions
    the labels [Year], [Month] and [Profit_Margin_%] have when they are
    assigned. *)
Definition derived_row (d p v : nat) (ly lm lg : list nat) (r : row)
  : result row :=
  y ← dt_year (cell_at d r);
  let r1 := put_cell ly y r in
  m ← dt_month_name (cell_at d r1);
  let r2 := put_cell lm m r1 in
  g ← profit_margin (cell_at p r2) (cell_at v r2);
  mret (put_cell lg g r2).

(** What [Cleaner] returns, stage by stage. *)
Definition cleaned (parse_date : cell -> option Timestamp)
    (df out : DataFrame) : Prop :=
  let cols0 := map clean_column_name (columns df) in
  let ly := positions_from 0 (py "Year") cols0 in
  let cols1 := put_label ly (py "Year") cols0 in
  let lm := positions_from 0 (py "Month") cols1 in
  let cols2 := put_label lm (py "Month") cols1 in
  let lg := positions_from 0 (py "Profit_Margin_%") cols2 in
  exists d p v : nat,
    get_loc cols0 (py "Date") = Ok d
    /\ get_loc cols2 (py "ProfitGBP") = Ok p
    /\ get_loc cols2 (py "RevenueGBP") = Ok v
    /\ columns out = put_label lg (py "Profit_Margin_%") cols2
    /\ mapM (derived_row d p v ly lm lg) (dated_rows parse_date d (rows df))
       = Ok (rows out).

End Stages.

(** No two rows of a frame are equal in all columns:
    [df.duplicated().any()] is false. *)
Definition no_duplicate_rows (df : DataFrame) : Prop :=
  forall (i j : nat) (r s : row),
    rows df !! i = Some r -> rows df !! j = Some s ->
    row_eqb r s = true -> i = j.

(** A row of the cleaned frame of an input without derived labels: the
    [n] cells of the input row, then year, month name and margin. *)
Definition derived_shape (d p v n : nat) (r' : row) : Prop :=
  exists (r : row) (t : Timestamp) (x z : float64),
    length r = n
    /\ r !! d = Some (Time t)
    /\ as_float (cell_at p r) = Ok x
    /\ as_float (cell_at v r) = Ok z
    /\ r' = r ++ [Int (ts_year t); Str (month_name (ts_month t));
                  Num (mul (div x z) (of_Z 100))].

(** ** Groups, for the statements *)



(** ** The dashboard traces (script lines 173-182) *)

(** The distinct cells of [cs] that equal no cell of [seen], in the order of
    their first appearance. *)
Fixpoint unique_from (seen cs : list cell) : list cell :=
  match cs with
  | [] => []
  | c :: cs' =>
      if existsb (cell_eqb c) seen
      then unique_from seen cs'
      else c :: unique_from (c :: seen) cs'
  end.

(** [s.unique()]: the missing values count as one value. *)
Definition unique (cs : list cell) : list cell := unique_from [] cs.

(** [a == b] on two cells of one column: a missing value equals nothing,
    itself included. *)
Definition cell_equal (a b : cell) : bool :=
  negb (isna a) && negb (isna b) && cell_eqb a b.

(** What [go.Scatter] is given: the name of the trace and its points. *)
Record Trace := mkTrace {
  trace_name : cell;
  trace_x : list cell;
  trace_y : list cell
}.

(** One pass of the loop: [subset = df[df["Confectionary"] == confection]],
    then the trace of [subset["Date"]] and [subset["RevenueGBP"]]. *)
Definition kpi_trace (df : DataFrame) (confection : cell) : result Trace :=
  conf ← getitem df (py "Confectionary");
  let subset :=
    {| columns := columns df;
       rows := List.filter (fun r => cell_equal (conf r) confection) (rows df) |} in
  date ← getitem subset (py "Date");
  revenue ← getitem subset (py "RevenueGBP");
  mret {| trace_name := confection;
          trace_x := map date (rows subset);
          trace_y := map revenue (rows subset) |}.

(** The traces added to [kpi_fig], in the order of the loop. *)
Definition kpi_traces (df : DataFrame) : result (list Trace) :=
  conf ← getitem df (py "Confectionary");
  mapM (kpi_trace df) (unique (map conf (rows df))).

(** ** Sample data *)

Module Sample.

Definition digit (c : N) : option Z :=
    if ((48 <=? c) && (c <=? 57))%N then Some (Z.of_N c - 48)%Z else None.

Definition month_of_number (n : Z) : option month :=
    match n with
    | 1 => Some January | 2 => Some February | 3 => Some March
    | 4 => Some April | 5 => Some May | 6 => Some June
    | 7 => Some July | 8 => Some August | 9 => Some September
    | 10 => Some October | 11 => Some November | 12 => Some December
    | _ => None
    end%Z.

(** A day-first parser for strings of the form DD/MM/YYYY. *)
Definition parse_date (c : cell) : option Timestamp :=
    match c with
    | Str [d1; d2; s1; m1; m2; s2; y1; y2; y3; y4] =>
        if ((s1 =? 47) && (s2 =? 47))%N then
          d1 ← digit d1; d2 ← digit d2; m1 ← digit m1; m2 ← digit m2;
          y1 ← digit y1; y2 ← digit y2; y3 ← digit y3; y4 ← digit y4;
          m ← month_of_number (10 * m1 + m2);
          let d := (10 * d1 + d2)%Z in
          if ((1 <=? d) && (d <=? 31))%Z
          then Some (mkTimestamp (1000 * y1 + 100 * y2 + 10 * y3 + y4) m d 0)
          else None
        else None
    | _ => None
    end.

(** A float64 with an integer value. *)
Definition num (z : Z) : cell := Num (of_Z z).

Definition sales : DataFrame :=
    {| columns := source_columns;
       rows :=
         [ [Str (py "15/02/2023"); Str (py "Biscuit"); Str (py "England");
            num 10; num 200; num 50];
           [Str (py "03/01/2023"); Str (py "Chocolate"); Str (py "Wales");
            num 5; num 100; num 40];
           [Str (py "15/02/2023"); Str (py "Biscuit"); Str (py "England");
            num 10; num 200; num 50];
           [Str (py "not a date"); Str (py "Caramel"); Str (py "Scotland");
            num 1; num 10; num 1];
           [Str (py "20/01/2023"); Str (py "Biscuit"); Str (py "Wales");
            num 0; num 0; num 5] ] |}.

(** A workbook that already has a [Year] column. *)
Definition with_year : DataFrame :=
  {| columns := [py "Date"; py "ProfitGBP"; py "RevenueGBP"; py "Year"];
     rows :=
       [ [Str (py "01/01/2023"); num 1; num 2; num 1999];
         [Str (py "01/01/2023"); num 1; num 2; num 2000] ] |}.

(** A workbook with a label that ends in a no-break space (U+00A0) and a
    closing parenthesis. *)
Definition with_nbsp_label : DataFrame :=
  {| columns := [py "Date"; py "ProfitGBP"; py "RevenueGBP";
                 py "Total (GBP" ++ [160%N] ++ py ")"];
     rows := [ [Str (py "01/01/2023"); num 1; num 2; num 3] ] |}.


(** One sale without revenue. *)
Definition zero_revenue : DataFrame :=
  {| columns := source_columns;
     rows := [ [Str (py "20/01/2023"); Str (py "Biscuit"); Str (py "Wales");
                num 0; num 0; num 5] ] |}.

(** What [Cleaner] returns on three of the samples. *)
Definition frame_of (r : result DataFrame) : DataFrame :=
  match r with
  | Ok d => d
  | Raise _ => {| columns := []; rows := [] |}
  end.

Definition cleaned_zero_revenue : DataFrame :=
  Eval vm_compute in frame_of (Cleaner parse_date zero_revenue).

Definition cleaned_with_year : DataFrame :=
  Eval vm_compute in frame_of (Cleaner parse_date with_year).

Definition cleaned_with_nbsp_label : DataFrame :=
  Eval vm_compute in frame_of (Cleaner parse_date with_nbsp_label).

(** The cleaned sample. *)
Definition cleaned_sales : DataFrame :=
  match Cleaner parse_date sales with
  | Ok d => d
  | Raise _ => {| columns := []; rows := [] |}
  end.



(** The variables of the script before section 3, and the same with
    left-overs of an earlier run. *)
Definition fresh_globals : Globals :=
  {| g_df := sales; g_avg_margin := None;
     g_region_revenue := None; g_peak_month := None |}.



(** A second sorting algorithm: the stable sort of the reversed list, which
    leaves rows that compare equal in the reverse of their order. *)
Definition reverse_sorter : Sorter :=
  {| sort := fun A le l => stable_sort le (rev l);
     sort_perm := fun A le l =>
       perm_trans (stable_sort_perm le (rev l))
         (Permutation_sym (Permutation_rev l));
     sort_sorted := fun A le Htot Htrans l =>
       stable_sort_sorted le Htot Htrans (rev l) |}.

(** The dashboard traces of the cleaned sample. *)
Definition sales_traces : list Trace :=
  match kpi_traces cleaned_sales with
  | Ok ts => ts
  | Raise _ => []
  end.

End Sample.

(** * Properties *)

(** ** The [result] monad *)

Lemma bind_Ok {A B} (m : result A) (k : A -> result B) (b : B) :
  (m ≫= k) = Ok b <-> exists a, m = Ok a /\ k a = Ok b.
Proof.
  destruct m as [a|e]; simpl.
  - split; [eauto | intros (a' & [= <-] & H); exact H].
  - split; [discriminate | intros (a' & [=] & _)].
Qed.

Ltac inv_bind H :=
  let a := fresh "x" in
  let H1 := fresh H "l" in
  apply bind_Ok in H; destruct H as (a & H1 & H).

Lemma mapM_Ok {A B} (f : A -> result B) (l : list A) (l' : list B) :
  mapM f l = Ok l' <-> Forall2 (fun a b => f a = Ok b) l l'.
Proof.
  revert l'; induction l as [|a l IH]; intros l'; simpl.
  - split.
    + intros [= <-]. constructor.
    + intros H. inversion H. reflexivity.
  - split.
    + intros H. inv_bind H. inv_bind H. injection H as <-.
      constructor; [assumption | apply IH; assumption].
    + intros H. inversion H as [|? b ? k Hab Hl]; subst.
      apply bind_Ok. exists b. split; [assumption|].
      apply bind_Ok. exists k. split; [apply IH; assumption | reflexivity].
Qed.

Lemma mapM_pure {A B} (f : A -> B) (l : list A) :
  mapM (fun a => mret (f a) : result B) l = Ok (map f l).
Proof.
  apply mapM_Ok. induction l; simpl; constructor; auto.
Qed.

(** ** Strings *)

Lemma pystr_eqb_eq (s t : pystr) : PyStr.eqb s t = true <-> s = t.
Proof.
  revert t; induction s as [|a s IH]; intros [|b t]; simpl;
    try (split; [discriminate | congruence]); [tauto|].
  rewrite andb_true_iff, N.eqb_eq, IH. split.
  - intros [-> ->]. reflexivity.
  - intros [= -> ->]. auto.
Qed.

Lemma pystr_eqb_refl (s : pystr) : PyStr.eqb s s = true.
Proof. apply pystr_eqb_eq. reflexivity. Qed.

Lemma pystr_eqb_neq (s t : pystr) : PyStr.eqb s t = false <-> s <> t.
Proof.
  rewrite <- pystr_eqb_eq. destruct (PyStr.eqb s t); split; congruence.
Qed.

(** ** Orders *)

Lemma lex_leb_total (a b : list Z) : lex_leb a b = false -> lex_leb b a = true.
Proof.
  revert b; induction a as [|x a IH]; intros [|y b]; simpl; try congruence.
  destruct (Z.ltb_spec x y), (Z.ltb_spec y x); try congruence; try lia.
  apply IH.
Qed.

Lemma lex_leb_trans (a b c : list Z) :
  lex_leb a b = true -> lex_leb b c = true -> lex_leb a c = true.
Proof.
  revert b c; induction a as [|x a IH]; intros [|y b] [|z c]; simpl;
    try congruence.
  destruct (Z.ltb_spec x y), (Z.ltb_spec y x), (Z.ltb_spec y z),
    (Z.ltb_spec z y), (Z.ltb_spec x z), (Z.ltb_spec z x);
    try congruence; try lia.
  apply IH.
Qed.

Lemma pystr_leb_lex (s t : pystr) :
  PyStr.leb s t = lex_leb (map Z.of_N s) (map Z.of_N t).
Proof.
  revert t; induction s as [|a s IH]; intros [|b t]; simpl; try reflexivity.
  rewrite IH.
  destruct (N.ltb_spec a b), (N.ltb_spec b a),
    (Z.ltb_spec (Z.of_N a) (Z.of_N b)), (Z.ltb_spec (Z.of_N b) (Z.of_N a));
    try reflexivity; lia.
Qed.


Lemma f64_leb_lex (x y : float64) :
  is_nan x = false -> is_nan y = false ->
  F64.leb x y = lex_leb (f64_rank x) (f64_rank y).
Proof.
  unfold F64.leb, SFleb.
  destruct x as [sx|sx| |sx mx ex], y as [sy|sy| |sy my ey]; simpl;
    try discriminate; intros _ _;
    try (destruct sx; reflexivity); try (destruct sy; reflexivity);
    try (destruct sx, sy; reflexivity).
  destruct sx, sy; simpl; try reflexivity.
  - destruct (Z.compare_spec ex ey), (Z.ltb_spec (- ex) (- ey)),
      (Z.ltb_spec (- ey) (- ex)); try lia; try reflexivity.
    subst. fold (Pos.compare mx my).
    destruct (Pos.compare_spec mx my), (Z.ltb_spec (Z.neg mx) (Z.neg my)),
      (Z.ltb_spec (Z.neg my) (Z.neg mx)); simpl; try lia; reflexivity.
  - destruct (Z.compare_spec ex ey), (Z.ltb_spec ex ey), (Z.ltb_spec ey ex);
      try lia; try reflexivity.
    subst. fold (Pos.compare mx my).
    destruct (Pos.compare_spec mx my), (Z.ltb_spec (Z.pos mx) (Z.pos my)),
      (Z.ltb_spec (Z.pos my) (Z.pos mx)); simpl; try lia; reflexivity.
Qed.


Lemma cell_leb_lex (a b : cell) :
  isna a = false -> isna b = false ->
  cell_leb a b = lex_leb (cell_rank a) (cell_rank b).
Proof.
  destruct a as [s|x|z|t|], b as [s'|x'|z'|t'|]; simpl;
    try discriminate; intros Ha Hb; try reflexivity.
  - apply pystr_leb_lex.
  - apply f64_leb_lex; assumption.
  - destruct (Z.leb_spec z z'), (Z.ltb_spec z z'), (Z.ltb_spec z' z);
      try lia; reflexivity.
Qed.

Lemma na_last_leb_total (asc : bool) (a b : cell) :
  na_last_leb asc a b = false -> na_last_leb asc b a = true.
Proof.
  unfold na_last_leb.
  destruct (isna a) eqn:Ha, (isna b) eqn:Hb; try congruence.
  destruct asc; rewrite !cell_leb_lex by assumption; apply lex_leb_total.
Qed.

Lemma na_last_leb_trans (asc : bool) (a b c : cell) :
  na_last_leb asc a b = true -> na_last_leb asc b c = true ->
  na_last_leb asc a c = true.
Proof.
  unfold na_last_leb.
  destruct (isna a) eqn:Ha, (isna b) eqn:Hb, (isna c) eqn:Hc; try congruence.
  destruct asc; rewrite !cell_leb_lex by assumption; intros H1 H2.
  - eapply lex_leb_trans; eassumption.
  - eapply lex_leb_trans; eassumption.
Qed.

Example clean_source_columns :
  map clean_column_name source_columns =
  [ py "Date"; py "Confectionary"; py "CountryUK"; py "Units_Sold";
    py "RevenueGBP"; py "ProfitGBP" ].
Proof. reflexivity. Qed.

(** ** Equality of cells and rows *)

Lemma f64_eqb_norm (x y : float64) :
  F64.eqb x y = true <-> f64_norm x = f64_norm y.
Proof.
  unfold F64.eqb, SFeqb.
  destruct x as [sx|sx| |sx mx ex], y as [sy|sy| |sy my ey]; simpl;
    try (split; [discriminate | congruence]); try tauto.
  all: destruct sx, sy; simpl; try (split; congruence).
    + destruct (Z.compare_spec ex ey); try (split; [discriminate | intros [=]; lia]).
      subst. fold (Pos.compare mx my).
      destruct (Pos.compare_spec mx my); simpl;
        try (split; [discriminate | intros [=]; lia]).
      subst. tauto.
    + destruct (Z.compare_spec ex ey); try (split; [discriminate | intros [=]; lia]).
      subst. fold (Pos.compare mx my).
      destruct (Pos.compare_spec mx my); simpl;
        try (split; [discriminate | intros [=]; lia]).
      subst. tauto.
Qed.

Lemma month_number_inj (m n : month) : month_number m = month_number n -> m = n.
Proof. destruct m, n; simpl; intros H; try reflexivity; discriminate. Qed.

Lemma ts_eqb_eq (t u : Timestamp) : ts_eqb t u = true <-> t = u.
Proof.
  destruct t as [y m d n], u as [y' m' d' n']; unfold ts_eqb, month_eqb; simpl.
  rewrite !andb_true_iff, !Z.eqb_eq. split.
  - intros [[[-> Hm] ->] ->]. apply month_number_inj in Hm. subst. reflexivity.
  - intros [= -> -> -> ->]. auto.
Qed.

Lemma cell_eqb_norm (a b : cell) :
  cell_eqb a b = true <-> cell_norm a = cell_norm b.
Proof.
  destruct a as [s|x|z|t|], b as [s'|x'|z'|t'|]; simpl;
    try (split; [discriminate | congruence]); try tauto.
  - rewrite pystr_eqb_eq. split; congruence.
  - rewrite f64_eqb_norm. split; congruence.
  - rewrite Z.eqb_eq. split; congruence.
  - rewrite ts_eqb_eq. split; congruence.
Qed.

Lemma row_eqb_norm (r s : row) :
  row_eqb r s = true <-> row_norm r = row_norm s.
Proof.
  revert s; induction r as [|a r IH]; intros [|b s]; simpl;
    try (split; [discriminate | congruence]); [tauto|].
  rewrite andb_true_iff, cell_eqb_norm, IH. split.
  - intros [-> ->]. reflexivity.
  - intros [= -> ->]. auto.
Qed.


Lemma existsb_row_eqb (r : row) (seen : list row) :
  existsb (row_eqb r) seen = true <-> In (row_norm r) (map row_norm seen).
Proof.
  rewrite existsb_exists, in_map_iff. split.
  - intros (s & Hs & He). exists s. apply row_eqb_norm in He. auto.
  - intros (s & He & Hs). exists s. split; [assumption|].
    apply row_eqb_norm. congruence.
Qed.

(** ** Column names *)

(** On the labels at hand, the two defaults of [str.replace] agree. *)
Example clean_column_name_either_default :
  map clean_column_name_regex
    ((py "Revenue (" ++ [pound_sign] ++ py ")") :: source_columns)
  = map clean_column_name
      ((py "Revenue (" ++ [pound_sign] ++ py ")") :: source_columns).
Proof. reflexivity. Qed.

Lemma replace_scan_Forall (P : N -> Prop) (old new : pystr) :
  Forall P new ->
  forall (s : pystr) (k : nat), Forall P s -> Forall P (replace_scan old new k s).
Proof.
  intros Hnew. induction s as [|c s IH]; intros k Hs; [constructor|].
  inversion Hs as [|? ? Hc Hs']; subst.
  destruct k as [|k]; cbn [replace_scan]; [|apply IH; assumption].
  destruct (startswith (c :: s) old).
  - apply Forall_app. split; [assumption | apply IH; assumption].
  - constructor; [assumption | apply IH; assumption].
Qed.

Lemma startswith_nil (s : pystr) : startswith s [] = true.
Proof. destruct s; reflexivity. Qed.

Lemma replace_space_no_space (s : pystr) :
  Forall (fun c => c <> 32%N) (replace (py " ") (py "_") s).
Proof.
  change (Forall (fun c => c <> 32%N) (replace_scan [32%N] [95%N] 0 s)).
  induction s as [|c s IH]; [constructor|].
  cbn [replace_scan startswith].
  change (length [32%N] - 1) with 0.
  rewrite startswith_nil.
  destruct (32 =? c)%N eqn:E; cbn [andb app].
  - constructor; [discriminate | exact IH].
  - apply N.eqb_neq in E. constructor; [congruence | exact IH].
Qed.

Lemma remove_parens_Forall (P : N -> Prop) (s : pystr) :
  Forall P s -> Forall P (remove_parens s).
Proof.
  unfold remove_parens. induction 1 as [|c s Hc Hs IH]; simpl; [constructor|].
  destruct (negb (is_paren c)); [constructor|]; assumption.
Qed.

Lemma remove_parens_no_paren (s : pystr) :
  Forall (fun c => c <> 40%N /\ c <> 41%N) (remove_parens s).
Proof.
  unfold remove_parens. induction s as [|c s IH]; simpl; [constructor|].
  unfold is_paren at 1.
  destruct (N.eqb_spec c 40), (N.eqb_spec c 41); simpl; try exact IH.
  constructor; [split; assumption | exact IH].
Qed.

Lemma clean_column_name_chars (c : pystr) :
  Forall (fun ch => ch <> 32%N /\ ch <> 40%N /\ ch <> 41%N) (clean_column_name c).
Proof.
  unfold clean_column_name.
  pose proof (remove_parens_no_paren
    (replace (py "(" ++ [pound_sign] ++ py ")") (py "GBP")
       (replace (py " ") (py "_") (strip c)))) as Hp.
  assert (Hs : Forall (fun ch => ch <> 32%N)
    (remove_parens
      (replace (py "(" ++ [pound_sign] ++ py ")") (py "GBP")
         (replace (py " ") (py "_") (strip c))))).
  { apply remove_parens_Forall.
    apply (replace_scan_Forall _ _ (py "GBP")).
    - repeat constructor; discriminate.
    - apply replace_space_no_space. }
  rewrite List.Forall_forall in *. intros ch Hch.
  specialize (Hp ch Hch). specialize (Hs ch Hch). tauto.
Qed.

(** C3, as the code has it.  Cleaning maps the label [Revenue (£)] to
    [Revenue_GBP]; a cleaned label holds no space and no parenthesis; the
    six labels of the source workbook are mapped to six distinct labels,
    which cleaning a second time leaves as they are.  (Distinct labels can
    be mapped to one label: see [clean_column_name_collision].) *)
Theorem clean_column_name_spec :
  clean_column_name (py "Revenue (" ++ [pound_sign] ++ py ")") = py "Revenue_GBP"
  /\ (forall c ch, In ch (clean_column_name c) ->
        ch <> 32%N /\ ch <> 40%N /\ ch <> 41%N)
  /\ List.NoDup (map clean_column_name source_columns)
  /\ map clean_column_name (map clean_column_name source_columns)
     = map clean_column_name source_columns.
Proof.
  split; [reflexivity|]. split; [|split; [|reflexivity]].
  - intros c ch Hch.
    pose proof (clean_column_name_chars c) as H.
    rewrite List.Forall_forall in H. exact (H ch Hch).
  - rewrite clean_source_columns.
    repeat (constructor; [simpl; intuition discriminate|]). constructor.
Qed.

(** C3, as the claim states it, fails: the two distinct labels
    [Units Sold] and [Units_Sold] are cleaned to the same label. *)
Lemma clean_column_name_collision :
  ~ (forall cols : list pystr,
       List.NoDup cols -> List.NoDup (map clean_column_name cols)).
Proof.
  intros H.
  specialize (H [py "Units Sold"; py "Units_Sold"]).
  assert (Hnd : List.NoDup [py "Units Sold"; py "Units_Sold"]).
  { repeat (constructor; [simpl; intuition discriminate|]). constructor. }
  apply H in Hnd. inversion Hnd as [|? ? Hin _]; subst.
  apply Hin. left. reflexivity.
Qed.

(** ** Column positions *)

Lemma positions_from_In (name : pystr) (cols : list pystr) (k i : nat) :
  In i (positions_from k name cols) <-> k <= i /\ cols !! (i - k) = Some name.
Proof.
  revert k; induction cols as [|c cols IH]; intros k; simpl.
  - split; [tauto | intros [_ H]; discriminate].
  - assert (Hstep : forall j, k <= j -> j <> k ->
              (c :: cols) !! (j - k) = cols !! (j - S k)).
    { intros j H1 H2. replace (j - k) with (S (j - S k)) by lia. reflexivity. }
    destruct (PyStr.eqb c name) eqn:E; simpl; rewrite IH.
    + apply pystr_eqb_eq in E. subst c. split.
      * intros [<-|[Hk Hl]].
        -- split; [lia|]. rewrite Nat.sub_diag. reflexivity.
        -- split; [lia|]. rewrite Hstep by lia. exact Hl.
      * intros [Hk Hl]. destruct (decide (i = k)) as [->|Hne]; [left; reflexivity|].
        right. split; [lia|]. rewrite Hstep in Hl by lia. exact Hl.
    + split.
      * intros [Hk Hl]. split; [lia|]. rewrite Hstep by lia. exact Hl.
      * intros [Hk Hl]. destruct (decide (i = k)) as [->|Hne].
        -- rewrite Nat.sub_diag in Hl. simpl in Hl. injection Hl as ->.
           rewrite pystr_eqb_refl in E. discriminate.
        -- split; [lia|]. rewrite Hstep in Hl by lia. exact Hl.
Qed.

Lemma positions_from_app (name : pystr) (c1 c2 : list pystr) (k : nat) :
  positions_from k name (c1 ++ c2)
  = positions_from k name c1 ++ positions_from (k + length c1) name c2.
Proof.
  revert k; induction c1 as [|c c1 IH]; intros k; simpl.
  - rewrite Nat.add_0_r. reflexivity.
  - rewrite IH. replace (S k + length c1) with (k + S (length c1)) by lia.
    destruct (PyStr.eqb c name); reflexivity.
Qed.

Lemma positions_from_nil (name : pystr) (cols : list pystr) (k : nat) :
  positions_from k name cols = [] <-> ~ In name cols.
Proof.
  revert k; induction cols as [|c cols IH]; intros k; simpl; [tauto|].
  destruct (PyStr.eqb c name) eqn:E.
  - apply pystr_eqb_eq in E. split; [discriminate | tauto].
  - apply pystr_eqb_neq in E. rewrite IH. tauto.
Qed.

Lemma get_loc_Ok (cols : list pystr) (name : pystr) (i : nat) :
  get_loc cols name = Ok i <-> positions_from 0 name cols = [i].
Proof.
  unfold get_loc. destruct (positions_from 0 name cols) as [|j [|j' l]].
  - split; discriminate.
  - split; intros [= ->]; reflexivity.
  - split; discriminate.
Qed.

Lemma get_loc_lookup (cols : list pystr) (name : pystr) (i : nat) :
  get_loc cols name = Ok i -> cols !! i = Some name.
Proof.
  intros H. apply get_loc_Ok in H.
  assert (Hp : In i (positions_from 0 name cols)) by (rewrite H; left; reflexivity).
  apply positions_from_In in Hp. rewrite Nat.sub_0_r in Hp. apply Hp.
Qed.

Lemma get_loc_lt (cols : list pystr) (name : pystr) (i : nat) :
  get_loc cols name = Ok i -> i < length cols.
Proof. intros H. eapply lookup_lt_Some, get_loc_lookup, H. Qed.

Lemma positions_other (name other : pystr) (cols : list pystr) (i : nat) :
  name <> other -> cols !! i = Some other -> ~ In i (positions_from 0 name cols).
Proof.
  intros Hne Hi Hp. apply positions_from_In in Hp.
  rewrite Nat.sub_0_r in Hp. destruct Hp as [_ Hp]. congruence.
Qed.

Lemma positions_put_label_other (name other : pystr) (locs : list nat)
    (cols : list pystr) :
  name <> other ->
  positions_from 0 name (put_label locs other cols) = positions_from 0 name cols.
Proof.
  intros Hne. destruct locs; simpl; [|reflexivity].
  rewrite positions_from_app. simpl.
  apply pystr_eqb_neq in Hne. rewrite (proj2 (pystr_eqb_neq other name)).
  - apply app_nil_r.
  - apply pystr_eqb_neq in Hne. congruence.
Qed.

Lemma get_loc_put_label_other (name other : pystr) (locs : list nat)
    (cols : list pystr) :
  name <> other -> get_loc (put_label locs other cols) name = get_loc cols name.
Proof.
  intros Hne. unfold get_loc. rewrite positions_put_label_other by assumption.
  reflexivity.
Qed.

Lemma positions_app_new (name : pystr) (cols : list pystr) :
  positions_from 0 name cols = [] ->
  positions_from 0 name (cols ++ [name]) = [length cols].
Proof.
  intros H. rewrite positions_from_app, H. simpl.
  rewrite pystr_eqb_refl. reflexivity.
Qed.

(** ** Cells of a row *)

Lemma set_cells_length (locs : list nat) (c : cell) (r : row) :
  length (set_cells locs c r) = length r.
Proof.
  induction locs as [|i locs IH]; simpl; [reflexivity|].
  rewrite length_insert. exact IH.
Qed.

Lemma set_cells_lookup_ne (locs : list nat) (c : cell) (r : row) (i : nat) :
  ~ In i locs -> set_cells locs c r !! i = r !! i.
Proof.
  induction locs as [|j locs IH]; simpl; intros H; [reflexivity|].
  rewrite list_lookup_insert_ne by tauto. apply IH. tauto.
Qed.

Lemma set_cells_id (i : nat) (c : cell) (r : row) :
  r !! i = Some c -> set_cells [i] c r = r.
Proof. intros H. simpl. apply list_insert_id, H. Qed.

Lemma put_cell_lookup_ne (locs : list nat) (c : cell) (r : row) (i : nat) :
  ~ In i locs -> i < length r -> put_cell locs c r !! i = r !! i.
Proof.
  intros H Hi. destruct locs as [|j locs]; simpl.
  - apply lookup_app_l, Hi.
  - apply (set_cells_lookup_ne (j :: locs)), H.
Qed.

Lemma put_cell_length (locs : list nat) (name : pystr) (cols : list pystr)
    (c : cell) (r : row) :
  length r = length cols ->
  length (put_cell locs c r) = length (put_label locs name cols).
Proof.
  intros H. destruct locs as [|j locs]; simpl.
  - rewrite !length_app. simpl. lia.
  - rewrite length_insert, set_cells_length. exact H.
Qed.

Lemma cell_at_lookup (i : nat) (r : row) (c : cell) :
  r !! i = Some c -> cell_at i r = c.
Proof. unfold cell_at. intros ->. reflexivity. Qed.

Lemma cell_at_put_cell_ne (locs : list nat) (c : cell) (r : row) (i : nat) :
  ~ In i locs -> i < length r -> cell_at i (put_cell locs c r) = cell_at i r.
Proof. intros H Hi. unfold cell_at. rewrite put_cell_lookup_ne by assumption. reflexivity. Qed.

(** ** [drop_duplicates] *)

Lemma keep_first_In (seen rs : list row) (r : row) :
  In r (keep_first seen rs) -> In r rs.
Proof.
  revert seen; induction rs as [|s rs IH]; intros seen; simpl; [tauto|].
  destruct (existsb (row_eqb s) seen).
  - intros H. right. eapply IH, H.
  - intros [->|H]; [left; reflexivity | right; eapply IH, H].
Qed.

Lemma keep_first_fresh (seen rs : list row) (r : row) :
  In r (keep_first seen rs) -> ~ In (row_norm r) (map row_norm seen).
Proof.
  revert seen; induction rs as [|s rs IH]; intros seen; simpl; [tauto|].
  destruct (existsb (row_eqb s) seen) eqn:E.
  - apply IH.
  - intros [->|H].
    + rewrite <- existsb_row_eqb, E. discriminate.
    + apply IH in H. simpl in H. tauto.
Qed.

Lemma keep_first_NoDup (seen rs : list row) :
  List.NoDup (map row_norm (keep_first seen rs)).
Proof.
  revert seen; induction rs as [|s rs IH]; intros seen; simpl; [constructor|].
  destruct (existsb (row_eqb s) seen) eqn:E; [apply IH|].
  simpl. constructor; [|apply IH].
  intros Hin. apply in_map_iff in Hin. destruct Hin as (r & Hr & Hin).
  apply keep_first_fresh in Hin. apply Hin. simpl. left. congruence.
Qed.

Lemma keep_first_covers (seen rs : list row) (r : row) :
  In r rs ->
  In (row_norm r) (map row_norm seen)
  \/ In (row_norm r) (map row_norm (keep_first seen rs)).
Proof.
  revert seen; induction rs as [|s rs IH]; intros seen; simpl; [tauto|].
  destruct (existsb (row_eqb s) seen) eqn:E.
  - intros [->|H]; [left; apply existsb_row_eqb, E | apply IH, H].
  - intros [->|H]; [right; left; reflexivity|].
    destruct (IH (s :: seen) H) as [[Hs|Hs]|Hs]; simpl; auto.
Qed.

Lemma keep_first_id (seen rs : list row) :
  List.NoDup (map row_norm rs) ->
  (forall r, In r rs -> ~ In (row_norm r) (map row_norm seen)) ->
  keep_first seen rs = rs.
Proof.
  revert seen; induction rs as [|s rs IH]; intros seen Hnd Hfresh; simpl;
    [reflexivity|].
  simpl in Hnd. apply List.NoDup_cons_iff in Hnd. destruct Hnd as [Hs Hnd].
  destruct (existsb (row_eqb s) seen) eqn:E.
  - apply existsb_row_eqb in E. exfalso. apply (Hfresh s); [left; reflexivity | exact E].
  - f_equal. apply IH; [exact Hnd|].
    intros r Hr [Heq|Hin].
    + apply Hs. rewrite Heq. apply in_map, Hr.
    + apply (Hfresh r); [right; exact Hr | exact Hin].
Qed.

(** ** Any sorting algorithm *)

Section Properties.
Context {sorter : Sorter}.

Lemma sort_In {A} (le : A -> A -> bool) (x : A) (l : list A) :
  In x (sort le l) <-> In x l.
Proof.
  split; apply Permutation_in; [|symmetry]; apply sort_perm.
Qed.

Lemma sort_singleton {A} (le : A -> A -> bool) (a : A) : sort le [a] = [a].
Proof. apply Permutation_length_1_inv. symmetry. apply sort_perm. Qed.


(** ** The stages of [Cleaner] *)

Lemma mapM_ext {A B} (f g : A -> result B) (l : list A) :
  (forall a, f a = g a) -> mapM f l = mapM g l.
Proof.
  intros H. induction l as [|a l IH]; simpl; [reflexivity|].
  rewrite H, IH. reflexivity.
Qed.

Lemma mapM_compose {A B C} (f : A -> result B) (g : B -> result C)
    (l : list A) (l2 : list C) :
  mapM (fun a => f a ≫= g) l = Ok l2
  <-> exists l1, mapM f l = Ok l1 /\ mapM g l1 = Ok l2.
Proof.
  rewrite mapM_Ok. split.
  - induction 1 as [|a c l l2 Hac Hl IH].
    + exists []. split; reflexivity.
    + destruct IH as (l1 & H1 & H2). apply bind_Ok in Hac.
      destruct Hac as (b & Hb & Hc). exists (b :: l1). simpl.
      rewrite Hb, H1, Hc, H2. split; reflexivity.
  - intros (l1 & H1 & H2). apply mapM_Ok in H1. apply mapM_Ok in H2.
    revert l2 H2. induction H1 as [|a b l l1 Hab Hl IH]; intros l2 H2.
    + inversion H2. constructor.
    + inversion H2 as [|? c ? l2' Hbc Hl2]; subst.
      constructor; [|apply IH; assumption].
      apply bind_Ok. eauto.
Qed.

Lemma getitem_Ok (df : DataFrame) (name : pystr) (f : row -> cell) :
  getitem df name = Ok f
  <-> exists i, get_loc (columns df) name = Ok i /\ f = cell_at i.
Proof.
  unfold getitem. rewrite bind_Ok. split.
  - intros (i & Hi & [= <-]). eauto.
  - intros (i & Hi & ->). eauto.
Qed.

Lemma setitem_mapM (name : pystr) (value : row -> result cell)
    (df out : DataFrame) :
  setitem name value df = Ok out <->
  columns out = put_label (positions_from 0 name (columns df)) name (columns df)
  /\ mapM (fun r => value r ≫= fun c =>
             mret (put_cell (positions_from 0 name (columns df)) c r)) (rows df)
     = Ok (rows out).
Proof.
  unfold setitem. rewrite bind_Ok. split.
  - intros (rs & Hrs & [= <-]). simpl. auto.
  - intros [Hc Hr]. exists (rows out). split; [exact Hr|].
    destruct out as [co ro]. simpl in *. subst co. reflexivity.
Qed.

Lemma dropna_Ok (name : pystr) (df out : DataFrame) :
  dropna name df = Ok out <->
  exists i, get_loc (columns df) name = Ok i
    /\ out = {| columns := columns df;
                rows := List.filter (fun r => negb (isna (cell_at i r))) (rows df) |}.
Proof.
  unfold dropna. rewrite bind_Ok. split.
  - intros (i & Hi & [= <-]). eauto.
  - intros (i & Hi & ->). eauto.
Qed.

Lemma sort_values_Ok (name : pystr) (asc : bool) (df out : DataFrame) :
  sort_values name asc df = Ok out <->
  exists i, get_loc (columns df) name = Ok i
    /\ out = {| columns := columns df;
                rows := sort
                  (fun r s => na_last_leb asc (cell_at i r) (cell_at i s))
                  (rows df) |}.
Proof.
  unfold sort_values. rewrite bind_Ok. split.
  - intros (i & Hi & [= <-]). eauto.
  - intros (i & Hi & ->). eauto.
Qed.

Lemma Date_neq_Year : py "Date" <> py "Year".
Proof. discriminate. Qed.
Lemma derived_row_steps (d p v : nat) (ly lm lg : list nat) (r : row) :
  derived_row d p v ly lm lg r =
  ((dt_year (cell_at d r) ≫= fun c => mret (put_cell ly c r))
     ≫= fun r1 => dt_month_name (cell_at d r1) ≫= fun c => mret (put_cell lm c r1))
    ≫= fun r2 => profit_margin (cell_at p r2) (cell_at v r2)
                   ≫= fun c => mret (put_cell lg c r2).
Proof.
  unfold derived_row. destruct (dt_year (cell_at d r)) as [y|e]; simpl; [|reflexivity].
  destruct (dt_month_name (cell_at d (put_cell ly y r))) as [m|e]; reflexivity.
Qed.

Lemma Cleaner_Ok (parse_date : cell -> option Timestamp) (df out : DataFrame) :
  Cleaner parse_date df = Ok out <-> cleaned parse_date df out.
Proof.
  unfold Cleaner, cleaned.
  set (cols0 := map clean_column_name (columns df)).
  set (ly := positions_from 0 (py "Year") cols0).
  set (cols1 := put_label ly (py "Year") cols0).
  set (lm := positions_from 0 (py "Month") cols1).
  set (cols2 := put_label lm (py "Month") cols1).
  set (lg := positions_from 0 (py "Profit_Margin_%") cols2).
  assert (Hcols1 : get_loc cols1 (py "Date") = get_loc cols0 (py "Date")).
  { apply get_loc_put_label_other, Date_neq_Year. }
  assert (Hstage : forall d, get_loc cols0 (py "Date") = Ok d ->
    forall df3,
      (setitem (py "Date")
         (fun r => mret (to_datetime parse_date (cell_at d r)))
         {| columns := cols0; rows := rows df |}
       ≫= fun df1 => dropna (py "Date") (drop_duplicates df1)
       ≫= fun df2 => sort_values (py "Date") true df2) = Ok df3
      <-> df3 = {| columns := cols0; rows := dated_rows parse_date d (rows df) |}).
  { intros d Hd df3. pose proof Hd as Hpos. apply get_loc_Ok in Hpos.
    rewrite bind_Ok. setoid_rewrite setitem_mapM. simpl. rewrite Hpos. simpl.
    rewrite (mapM_pure (fun r => <[d:=to_datetime parse_date (cell_at d r)]> r)).
    split.
    - intros (df1 & [Hc1 Hr1] & Hk). injection Hr1 as Hr1.
      destruct df1 as [c1 r1]. simpl in *. subst.
      apply bind_Ok in Hk. destruct Hk as (df2 & H2 & Hk).
      apply dropna_Ok in H2. destruct H2 as (i & Hi & ->). simpl in Hi.
      rewrite Hd in Hi. injection Hi as <-.
      apply sort_values_Ok in Hk. destruct Hk as (i & Hi & ->). simpl in Hi.
      rewrite Hd in Hi. injection Hi as <-. reflexivity.
    - intros ->.
      exists {| columns := cols0;
                rows := map (fun r => <[d:=to_datetime parse_date (cell_at d r)]> r)
                          (rows df) |}.
      split; [split; reflexivity|].
      unfold dropna, sort_values. simpl. rewrite Hd. simpl. rewrite Hd. reflexivity. }
  split.
  - intros H.
    apply bind_Ok in H. destruct H as (date & Hdate & H).
    apply getitem_Ok in Hdate. destruct Hdate as (d & Hd & ->). simpl in Hd.
    fold cols0 in Hd, H.
    apply bind_Ok in H. destruct H as (df1 & H1 & H).
    apply bind_Ok in H. destruct H as (df2 & H2 & H).
    apply bind_Ok in H. destruct H as (df3 & H3 & H).
    assert (Hdf3 : df3 = {| columns := cols0;
                            rows := dated_rows parse_date d (rows df) |}).
    { apply (Hstage d Hd). rewrite H1. simpl. rewrite H2. exact H3. }
    clear H1 H2 H3. subst df3.
    apply bind_Ok in H. destruct H as (date & Hdate & H).
    apply getitem_Ok in Hdate. destruct Hdate as (d' & Hd' & ->). simpl in Hd'.
    rewrite Hd in Hd'. injection Hd' as <-.
    apply bind_Ok in H. destruct H as (df4 & H4 & H).
    apply setitem_mapM in H4. simpl in H4. fold ly cols1 in H4.
    destruct H4 as [Hc4 Hr4].
    apply bind_Ok in H. destruct H as (date & Hdate & H).
    apply getitem_Ok in Hdate. destruct Hdate as (d' & Hd' & ->).
    rewrite Hc4, Hcols1, Hd in Hd'. injection Hd' as <-.
    apply bind_Ok in H. destruct H as (df5 & H5 & H).
    apply setitem_mapM in H5. rewrite Hc4 in H5. fold lm cols2 in H5.
    destruct H5 as [Hc5 Hr5].
    apply bind_Ok in H. destruct H as (profit & Hp & H).
    apply getitem_Ok in Hp. destruct Hp as (p & Hp & ->). rewrite Hc5 in Hp.
    apply bind_Ok in H. destruct H as (revenue & Hv & H).
    apply getitem_Ok in Hv. destruct Hv as (v & Hv & ->). rewrite Hc5 in Hv.
    apply setitem_mapM in H. rewrite Hc5 in H. fold lg in H.
    destruct H as [Hc6 Hr6].
    exists d, p, v. repeat (split; [assumption|]).
    rewrite (mapM_ext _ _ _ (derived_row_steps d p v ly lm lg)).
    apply mapM_compose. exists (rows df5). split; [|exact Hr6].
    apply mapM_compose. exists (rows df4). split; assumption.
  - intros (d & p & v & Hd & Hp & Hv & Hc & Hr).
    rewrite (mapM_ext _ _ _ (derived_row_steps d p v ly lm lg)) in Hr.
    apply mapM_compose in Hr. destruct Hr as (rows5 & Hr & Hr6).
    apply mapM_compose in Hr. destruct Hr as (rows4 & Hr4 & Hr5).
    apply bind_Ok. exists (cell_at d). split.
    { apply getitem_Ok. exists d. split; [exact Hd | reflexivity]. }
    fold cols0.
    pose proof (proj2 (Hstage d Hd _) eq_refl) as Hs.
    apply bind_Ok in Hs. destruct Hs as (df1 & H1 & Hs).
    apply bind_Ok in Hs. destruct Hs as (df2 & H2 & H3).
    apply bind_Ok. exists df1. split; [exact H1|].
    apply bind_Ok. exists df2. split; [exact H2|].
    apply bind_Ok. eexists. split; [exact H3|].
    apply bind_Ok. exists (cell_at d). split.
    { apply getitem_Ok. exists d. split; [exact Hd | reflexivity]. }
    apply bind_Ok. exists {| columns := cols1; rows := rows4 |}. split.
    { apply setitem_mapM. split; [reflexivity | exact Hr4]. }
    apply bind_Ok. exists (cell_at d). split.
    { apply getitem_Ok. exists d. simpl. rewrite Hcols1. auto. }
    apply bind_Ok. exists {| columns := cols2; rows := rows5 |}. split.
    { apply setitem_mapM. split; [reflexivity | exact Hr5]. }
    apply bind_Ok. exists (cell_at p). split.
    { apply getitem_Ok. exists p. auto. }
    apply bind_Ok. exists (cell_at v). split.
    { apply getitem_Ok. exists v. auto. }
    apply setitem_mapM. split; [exact Hc | exact Hr6].
Qed.

(** ** The rows of the cleaned frame *)

Lemma to_datetime_cases (parse_date : cell -> option Timestamp) (c : cell) :
  to_datetime parse_date c = NaT \/ exists t, to_datetime parse_date c = Time t.
Proof.
  destruct c as [s|x|z|t|]; simpl; eauto.
  - destruct (parse_date (Str s)); eauto.
  - destruct (is_nan x); [auto|]. destruct (parse_date (Num x)); eauto.
  - destruct (parse_date (Int z)); eauto.
Qed.

Lemma dated_rows_In (parse_date : cell -> option Timestamp) (d : nat)
    (rs : list row) (r : row) :
  In r (dated_rows parse_date d rs) ->
  (exists t, r !! d = Some (Time t))
  /\ exists r0, In r0 rs /\ r = <[d := to_datetime parse_date (cell_at d r0)]> r0.
Proof.
  unfold dated_rows. rewrite sort_In, filter_In.
  intros [Hin Hna]. apply keep_first_In in Hin. apply in_map_iff in Hin.
  destruct Hin as (r0 & <- & Hr0). split; [|eauto].
  unfold cell_at in Hna at 1.
  destruct (decide (d < length r0)) as [Hlt|Hge].
  - rewrite list_lookup_insert_eq in * by assumption. simpl in Hna.
    destruct (to_datetime_cases parse_date (cell_at d r0)) as [E|[t E]];
      rewrite E in *; [discriminate | eauto].
  - rewrite list_insert_ge in Hna by lia.
    rewrite (lookup_ge_None_2 r0 d) in Hna by lia. discriminate.
Qed.

Lemma dated_rows_sorted (parse_date : cell -> option Timestamp) (d : nat)
    (rs : list row) :
  StronglySorted
    (fun r s => na_last_leb true (cell_at d r) (cell_at d s) = true)
    (dated_rows parse_date d rs).
Proof.
  apply sort_sorted.
  - intros a b. apply na_last_leb_total.
  - intros a b c. apply na_last_leb_trans.
Qed.

Lemma NoDup_map_filter {A B} (f : A -> B) (p : A -> bool) (l : list A) :
  List.NoDup (map f l) -> List.NoDup (map f (List.filter p l)).
Proof.
  induction l as [|a l IH]; simpl; [auto|].
  rewrite List.NoDup_cons_iff. intros [Ha Hl].
  destruct (p a); simpl; [|auto].
  constructor; [|auto].
  intros Hin. apply Ha. apply in_map_iff in Hin. destruct Hin as (b & Hb & Hin).
  apply filter_In in Hin. rewrite <- Hb. apply in_map. tauto.
Qed.

Lemma dated_rows_NoDup (parse_date : cell -> option Timestamp) (d : nat)
    (rs : list row) :
  List.NoDup (map row_norm (dated_rows parse_date d rs)).
Proof.
  unfold dated_rows.
  eapply Permutation_NoDup.
  - apply Permutation_map. symmetry. apply sort_perm.
  - apply NoDup_map_filter, keep_first_NoDup.
Qed.

Lemma dated_rows_length (parse_date : cell -> option Timestamp) (d n : nat)
    (rs : list row) (r : row) :
  (forall r0, In r0 rs -> length r0 = n) ->
  In r (dated_rows parse_date d rs) -> length r = n.
Proof.
  intros Hn Hr. apply dated_rows_In in Hr. destruct Hr as (_ & r0 & Hr0 & ->).
  rewrite length_insert. apply Hn, Hr0.
Qed.

Lemma NoDup_map_lookup {A B} (f : A -> B) (l : list A) (i j : nat) (a b : A) :
  List.NoDup (map f l) -> l !! i = Some a -> l !! j = Some b -> f a = f b -> i = j.
Proof.
  revert i j; induction l as [|x l IH]; intros i j Hnd Hi Hj Hab;
    [discriminate|].
  simpl in Hnd. apply List.NoDup_cons_iff in Hnd. destruct Hnd as [Hx Hnd].
  destruct i as [|i], j as [|j]; simpl in *.
  - reflexivity.
  - injection Hi as ->. exfalso. apply Hx. rewrite Hab. apply in_map.
    apply list_elem_of_In. eapply list_elem_of_lookup_2, Hj.
  - injection Hj as ->. exfalso. apply Hx. rewrite <- Hab. apply in_map.
    apply list_elem_of_In. eapply list_elem_of_lookup_2, Hi.
  - f_equal. eapply IH; eassumption.
Qed.

Lemma Forall2_In_r {A B} (R : A -> B -> Prop) (l : list A) (l' : list B) (b : B) :
  Forall2 R l l' -> In b l' -> exists a, In a l /\ R a b.
Proof.
  induction 1 as [|x y l l' Hxy Hl IH]; simpl; [tauto|].
  intros [<-|Hin]; [eauto|].
  destruct (IH Hin) as (a & Ha & Hab). eauto.
Qed.

Lemma NoDup_map_Forall2 {A B C} (f : A -> C) (g : B -> C) (R : A -> B -> Prop)
    (l : list A) (l' : list B) :
  (forall a a' b b', R a a' -> R b b' -> g a' = g b' -> f a = f b) ->
  Forall2 R l l' -> List.NoDup (map f l) -> List.NoDup (map g l').
Proof.
  intros HR. induction 1 as [|a a' l l' Haa Hl IH]; simpl; [auto|].
  rewrite !List.NoDup_cons_iff. intros [Ha Hnd]. split; [|auto].
  intros Hin. apply Ha. apply in_map_iff in Hin. destruct Hin as (b' & Hb & Hin).
  destruct (Forall2_In_r R l l' b' Hl Hin) as (b & Hbl & Hbb).
  rewrite (HR a a' b b' Haa Hbb (eq_sym Hb)).
  apply in_map, Hbl.
Qed.

Lemma StronglySorted_map {A B} (f : A -> B) (R : B -> B -> Prop) (l : list A) :
  StronglySorted (fun x y => R (f x) (f y)) l <-> StronglySorted R (map f l).
Proof.
  induction l as [|a l IH]; simpl.
  - split; constructor.
  - split; intros H; inversion H as [|? ? Hl Ha]; subst; constructor.
    + apply IH, Hl.
    + rewrite List.Forall_forall in *. intros y Hy. apply in_map_iff in Hy.
      destruct Hy as (x & <- & Hx). apply Ha, Hx.
    + apply IH, Hl.
    + rewrite List.Forall_forall in *. intros y Hy. apply Ha, in_map, Hy.
Qed.

(** The [Date] cell of a row is not touched by the derived columns. *)
Lemma derived_row_keeps (d p v : nat) (ly lm lg : list nat) (r r' : row) (i : nat) :
  derived_row d p v ly lm lg r = Ok r' ->
  i < length r -> ~ In i ly -> ~ In i lm -> ~ In i lg ->
  r' !! i = r !! i.
Proof.
  unfold derived_row. intros H Hi Hy Hm Hg.
  apply bind_Ok in H. destruct H as (y & _ & H).
  apply bind_Ok in H. destruct H as (m & _ & H).
  apply bind_Ok in H. destruct H as (g & _ & [= <-]).
  assert (H1 : put_cell ly y r !! i = r !! i) by (apply put_cell_lookup_ne; assumption).
  assert (L1 : i < length (put_cell ly y r)).
  { apply lookup_lt_is_Some. rewrite H1. apply lookup_lt_is_Some, Hi. }
  assert (H2 : put_cell lm m (put_cell ly y r) !! i = r !! i).
  { rewrite put_cell_lookup_ne by assumption. exact H1. }
  assert (L2 : i < length (put_cell lm m (put_cell ly y r))).
  { apply lookup_lt_is_Some. rewrite H2. apply lookup_lt_is_Some, Hi. }
  rewrite put_cell_lookup_ne by assumption. exact H2.
Qed.

(** ** The derived columns *)

Lemma rectangular_spec (df : DataFrame) :
  rectangular df = true <-> forall r, In r (rows df) -> length r = length (columns df).
Proof.
  unfold rectangular. rewrite forallb_forall.
  split; intros H r Hr; specialize (H r Hr); apply Nat.eqb_eq; exact H.
Qed.

Lemma mapM_total {A B} (f : A -> result B) (l : list A) :
  (forall a, In a l -> exists b, f a = Ok b) -> exists l', mapM f l = Ok l'.
Proof.
  induction l as [|a l IH]; intros H; simpl.
  - exists []. reflexivity.
  - destruct (H a (or_introl eq_refl)) as [b Hb].
    destruct IH as [l' Hl']; [intros x Hx; apply H; right; exact Hx|].
    exists (b :: l'). rewrite Hb, Hl'. reflexivity.
Qed.

Lemma mapM_length {A B} (f : A -> result B) (l : list A) (l' : list B) :
  mapM f l = Ok l' -> length l' = length l.
Proof.
  intros H. apply mapM_Ok in H. symmetry. eapply Forall2_length, H.
Qed.

Lemma derived_row_inv (d p v : nat) (ly lm lg : list nat) (r r' : row) :
  derived_row d p v ly lm lg r = Ok r' <->
  exists (y m : cell) (x z : float64),
    dt_year (cell_at d r) = Ok y
    /\ dt_month_name (cell_at d (put_cell ly y r)) = Ok m
    /\ as_float (cell_at p (put_cell lm m (put_cell ly y r))) = Ok x
    /\ as_float (cell_at v (put_cell lm m (put_cell ly y r))) = Ok z
    /\ r' = put_cell lg (Num (mul (div x z) (of_Z 100)))
              (put_cell lm m (put_cell ly y r)).
Proof.
  unfold derived_row, profit_margin. split.
  - intros H.
    apply bind_Ok in H. destruct H as (y & Hy & H).
    apply bind_Ok in H. destruct H as (m & Hm & H).
    apply bind_Ok in H. destruct H as (g & Hg & [= <-]).
    apply bind_Ok in Hg. destruct Hg as (x & Hx & Hg).
    apply bind_Ok in Hg. destruct Hg as (z & Hz & [= <-]).
    exists y, m, x, z. auto.
  - intros (y & m & x & z & Hy & Hm & Hx & Hz & ->).
    rewrite Hy. simpl. rewrite Hm. simpl. rewrite Hx. simpl. rewrite Hz.
    reflexivity.
Qed.

(** On a row with a timestamp and two numbers, in a rectangular frame. *)
Lemma derived_row_Ok (cols0 : list pystr) (d p v : nat) (r : row)
    (t : Timestamp) (x z : float64) :
  let ly := positions_from 0 (py "Year") cols0 in
  let cols1 := put_label ly (py "Year") cols0 in
  let lm := positions_from 0 (py "Month") cols1 in
  let cols2 := put_label lm (py "Month") cols1 in
  let lg := positions_from 0 (py "Profit_Margin_%") cols2 in
  length r = length cols0 ->
  get_loc cols0 (py "Date") = Ok d ->
  get_loc cols0 (py "ProfitGBP") = Ok p ->
  get_loc cols0 (py "RevenueGBP") = Ok v ->
  r !! d = Some (Time t) ->
  as_float (cell_at p r) = Ok x ->
  as_float (cell_at v r) = Ok z ->
  derived_row d p v ly lm lg r
  = Ok (put_cell lg (Num (mul (div x z) (of_Z 100)))
          (put_cell lm (Str (month_name (ts_month t)))
             (put_cell ly (Int (ts_year t)) r))).
Proof.
  intros ly cols1 lm cols2 lg Hlen Hd Hp Hv Ht Hx Hz.
  assert (Hd1 : get_loc cols1 (py "Date") = Ok d).
  { unfold cols1. rewrite get_loc_put_label_other by discriminate. exact Hd. }
  assert (Hp1 : get_loc cols1 (py "ProfitGBP") = Ok p).
  { unfold cols1. rewrite get_loc_put_label_other by discriminate. exact Hp. }
  assert (Hv1 : get_loc cols1 (py "RevenueGBP") = Ok v).
  { unfold cols1. rewrite get_loc_put_label_other by discriminate. exact Hv. }
  assert (Ld : d < length r) by (rewrite Hlen; eapply get_loc_lt, Hd).
  assert (Lp : p < length r) by (rewrite Hlen; eapply get_loc_lt, Hp).
  assert (Lv : v < length r) by (rewrite Hlen; eapply get_loc_lt, Hv).
  assert (Hlen1 : forall y, length (put_cell ly y r) = length cols1).
  { intros y. apply put_cell_length, Hlen. }
  apply derived_row_inv.
  exists (Int (ts_year t)), (Str (month_name (ts_month t))), x, z.
  rewrite (cell_at_lookup _ _ _ Ht). split; [reflexivity|].
  assert (Ny : forall name i, name <> py "Year" -> get_loc cols0 name = Ok i ->
                 ~ In i ly).
  { intros name i Hne Hi. apply (positions_other _ name); [congruence|].
    apply get_loc_lookup, Hi. }
  assert (Nm : forall name i, name <> py "Month" -> get_loc cols1 name = Ok i ->
                 ~ In i lm).
  { intros name i Hne Hi. apply (positions_other _ name); [congruence|].
    apply get_loc_lookup, Hi. }
  rewrite cell_at_put_cell_ne
    by first [assumption | eapply Ny; [|eassumption]; discriminate].
  rewrite (cell_at_lookup _ _ _ Ht). split; [reflexivity|].
  rewrite !cell_at_put_cell_ne;
    try assumption;
    try (rewrite Hlen1; eapply get_loc_lt; eassumption);
    try (eapply Ny; [|eassumption]; discriminate);
    try (eapply Nm; [|eassumption]; discriminate).
  auto.
Qed.

Lemma lookup_Time_list (d : nat) (l : list row) :
  (forall r, In r l -> exists t, r !! d = Some (Time t)) ->
  exists ts, map (fun r => r !! d) l = map (fun t => Some (Time t)) ts.
Proof.
  induction l as [|r l IH]; intros H.
  - exists []. reflexivity.
  - destruct (H r (or_introl eq_refl)) as [t Ht].
    destruct IH as [ts Hts]; [intros r' Hr'; apply H; right; exact Hr'|].
    exists (t :: ts). simpl. rewrite Ht, Hts. reflexivity.
Qed.

Lemma Forall2_map_eq {A B C} (f : A -> C) (g : B -> C) (l : list A) (l' : list B) :
  Forall2 (fun a b => g b = f a) l l' -> map g l' = map f l.
Proof. induction 1; simpl; congruence. Qed.

Lemma Forall2_In_impl {A B} (R S : A -> B -> Prop) (l : list A) (l' : list B) :
  (forall a b, In a l -> R a b -> S a b) -> Forall2 R l l' -> Forall2 S l l'.
Proof.
  intros H HR. induction HR as [|a b l l' Hab Hl IH]; constructor.
  - apply H; [left; reflexivity | exact Hab].
  - apply IH. intros x y Hx. apply H. right. exact Hx.
Qed.

(** The positions of [Date] and of the derived labels in the cleaned frame. *)
Lemma cleaned_Date_positions (cols0 : list pystr) (d : nat) :
  get_loc cols0 (py "Date") = Ok d ->
  let ly := positions_from 0 (py "Year") cols0 in
  let cols1 := put_label ly (py "Year") cols0 in
  let lm := positions_from 0 (py "Month") cols1 in
  let cols2 := put_label lm (py "Month") cols1 in
  let lg := positions_from 0 (py "Profit_Margin_%") cols2 in
  ~ In d ly /\ ~ In d lm /\ ~ In d lg
  /\ get_loc (put_label lg (py "Profit_Margin_%") cols2) (py "Date") = Ok d.
Proof.
  intros Hd ly cols1 lm cols2 lg.
  assert (H1 : get_loc cols1 (py "Date") = Ok d).
  { unfold cols1. rewrite get_loc_put_label_other by discriminate. exact Hd. }
  assert (H2 : get_loc cols2 (py "Date") = Ok d).
  { unfold cols2. rewrite get_loc_put_label_other by discriminate. exact H1. }
  repeat split.
  - apply (positions_other _ (py "Date")); [discriminate | apply get_loc_lookup, Hd].
  - apply (positions_other _ (py "Date")); [discriminate | apply get_loc_lookup, H1].
  - apply (positions_other _ (py "Date")); [discriminate | apply get_loc_lookup, H2].
  - rewrite get_loc_put_label_other by discriminate. exact H2.
Qed.

(** C5.  In the frame [Cleaner] returns, the [Date] cell of every row is a
    timestamp (never missing), and the rows are in non-decreasing order of
    [Date]; the derived columns [Year], [Month] and [Profit_Margin_%] are
    part of that frame. *)
Theorem cleaned_dates_sorted (parse_date : cell -> option Timestamp)
    (df out : DataFrame) :
  Cleaner parse_date df = Ok out ->
  exists (d : nat) (ts : list Timestamp),
    get_loc (columns out) (py "Date") = Ok d
    /\ map (fun r => r !! d) (rows out) = map (fun t => Some (Time t)) ts
    /\ StronglySorted (fun t u => ts_leb t u = true) ts.
Proof.
  intros H. apply Cleaner_Ok in H.
  destruct H as (d & p & v & Hd & Hp & Hv & Hc & Hr).
  destruct (cleaned_Date_positions _ d Hd) as (Hy & Hm & Hg & Hloc).
  apply mapM_Ok in Hr.
  destruct (lookup_Time_list d (dated_rows parse_date d (rows df))) as [ts Hts].
  { intros r Hr'. apply dated_rows_In in Hr'. apply Hr'. }
  exists d, ts. split; [rewrite Hc; exact Hloc|]. split.
  - rewrite <- Hts. apply Forall2_map_eq.
    eapply Forall2_In_impl; [|exact Hr]. intros r r' Hin Hrr. simpl in Hrr.
    apply dated_rows_In in Hin. destruct Hin as [[t Ht] _].
    eapply derived_row_keeps; try eassumption.
    eapply lookup_lt_Some, Ht.
  - pose proof (dated_rows_sorted parse_date d (rows df)) as Hs.
    apply (StronglySorted_map (cell_at d)
             (fun a b => na_last_leb true a b = true)) in Hs.
    assert (E : map (cell_at d) (dated_rows parse_date d (rows df)) = map Time ts).
    { unfold cell_at.
      rewrite <- (map_map (fun r : row => r !! d) (default NaT)), Hts, map_map.
      reflexivity. }
    rewrite E in Hs.
    apply (StronglySorted_map Time (fun a b => na_last_leb true a b = true)) in Hs.
    exact Hs.
Qed.

Lemma row_norm_snoc_inj (r s : row) (a b : cell) :
  row_norm (r ++ [a]) = row_norm (s ++ [b]) -> row_norm r = row_norm s.
Proof.
  unfold row_norm. rewrite !map_app. simpl. intros H.
  apply app_inj_tail in H. apply H.
Qed.

Lemma positions_snoc_other (name other : pystr) (cols : list pystr) :
  name <> other ->
  positions_from 0 name (cols ++ [other]) = positions_from 0 name cols.
Proof. apply (positions_put_label_other name other []). Qed.

Lemma get_loc_snoc_other (name other : pystr) (cols : list pystr) :
  name <> other -> get_loc (cols ++ [other]) name = get_loc cols name.
Proof. apply (get_loc_put_label_other name other []). Qed.

(** Without derived labels in the input, the three assignments append. *)
Lemma fresh_labels (cols0 : list pystr) :
  ~ In (py "Year") cols0 -> ~ In (py "Month") cols0 ->
  ~ In (py "Profit_Margin_%") cols0 ->
  positions_from 0 (py "Year") cols0 = []
  /\ positions_from 0 (py "Month") (cols0 ++ [py "Year"]) = []
  /\ positions_from 0 (py "Profit_Margin_%")
       ((cols0 ++ [py "Year"]) ++ [py "Month"]) = [].
Proof.
  intros Hy Hm Hg. repeat split.
  - apply positions_from_nil, Hy.
  - rewrite positions_snoc_other by discriminate. apply positions_from_nil, Hm.
  - rewrite !positions_snoc_other by discriminate. apply positions_from_nil, Hg.
Qed.

Lemma cleaned_fresh (parse_date : cell -> option Timestamp) (df out : DataFrame) :
  let cols0 := map clean_column_name (columns df) in
  Cleaner parse_date df = Ok out ->
  ~ In (py "Year") cols0 -> ~ In (py "Month") cols0 ->
  ~ In (py "Profit_Margin_%") cols0 ->
  exists d p v,
    get_loc cols0 (py "Date") = Ok d
    /\ get_loc cols0 (py "ProfitGBP") = Ok p
    /\ get_loc cols0 (py "RevenueGBP") = Ok v
    /\ columns out = cols0 ++ [py "Year"; py "Month"; py "Profit_Margin_%"]
    /\ Forall2 (fun r r' => derived_row d p v [] [] [] r = Ok r')
         (dated_rows parse_date d (rows df)) (rows out).
Proof.
  intros cols0 H Hy Hm Hg. apply Cleaner_Ok in H.
  destruct H as (d & p & v & Hd & Hp & Hv & Hc & Hr).
  fold cols0 in Hd, Hp, Hv, Hc, Hr.
  destruct (fresh_labels cols0 Hy Hm Hg) as (Ey & Em & Eg).
  rewrite Ey in Hp, Hv, Hc, Hr. simpl in Hp, Hv, Hc, Hr.
  rewrite Em in Hp, Hv, Hc, Hr. simpl in Hp, Hv, Hc, Hr.
  rewrite Eg in Hc, Hr. simpl in Hc, Hr.
  rewrite !get_loc_snoc_other in Hp, Hv by discriminate.
  exists d, p, v. repeat (split; [assumption|]). split.
  - rewrite Hc, <- !app_assoc. reflexivity.
  - apply mapM_Ok, Hr.
Qed.

Lemma cleaned_rows_NoDup (parse_date : cell -> option Timestamp)
    (df out : DataFrame) :
  Cleaner parse_date df = Ok out ->
  ~ In (py "Year") (map clean_column_name (columns df)) ->
  ~ In (py "Month") (map clean_column_name (columns df)) ->
  ~ In (py "Profit_Margin_%") (map clean_column_name (columns df)) ->
  List.NoDup (map row_norm (rows out)).
Proof.
  intros H Hy Hm Hg.
  destruct (cleaned_fresh parse_date df out H Hy Hm Hg)
    as (d & p & v & _ & _ & _ & _ & Hr).
  eapply NoDup_map_Forall2; [|exact Hr|apply dated_rows_NoDup].
  intros a a' b b' Ha Hb Hab.
  apply derived_row_inv in Ha, Hb.
  destruct Ha as (y1 & m1 & x1 & z1 & _ & _ & _ & _ & ->).
  destruct Hb as (y2 & m2 & x2 & z2 & _ & _ & _ & _ & ->).
  simpl in Hab.
  apply row_norm_snoc_inj, row_norm_snoc_inj, row_norm_snoc_inj in Hab.
  exact Hab.
Qed.

(** C6, as the code has it.  When none of the cleaned labels of the input
    is [Year], [Month] or [Profit_Margin_%], no two rows of the frame
    [Cleaner] returns are equal in all columns, derived columns included. *)
Theorem cleaned_rows_distinct (parse_date : cell -> option Timestamp)
    (df out : DataFrame) :
  Cleaner parse_date df = Ok out ->
  ~ In (py "Year") (map clean_column_name (columns df)) ->
  ~ In (py "Month") (map clean_column_name (columns df)) ->
  ~ In (py "Profit_Margin_%") (map clean_column_name (columns df)) ->
  no_duplicate_rows out.
Proof.
  intros H Hy Hm Hg i j r s Hi Hj Hrs. apply row_eqb_norm in Hrs.
  eapply NoDup_map_lookup; try eassumption.
  eapply cleaned_rows_NoDup; eassumption.
Qed.

(** ** Three rows, one duplicate and one bad date *)

Lemma row_norm_lookup (r : row) (i : nat) :
  row_norm r !! i = option_map cell_norm (r !! i).
Proof.
  revert i; induction r as [|c r IH]; intros [|i]; simpl; auto.
Qed.


Lemma distinct_labels_positions (cols : list pystr) (a b : pystr) (i j : nat) :
  a <> b -> get_loc cols a = Ok i -> get_loc cols b = Ok j -> i <> j.
Proof.
  intros Hab Hi Hj ->. apply get_loc_lookup in Hi, Hj. congruence.
Qed.

Lemma Cleaner_of_dated_rows (parse_date : cell -> option Timestamp)
    (df : DataFrame) (d p v : nat) :
  let cols0 := map clean_column_name (columns df) in
  rectangular df = true ->
  get_loc cols0 (py "Date") = Ok d ->
  get_loc cols0 (py "ProfitGBP") = Ok p ->
  get_loc cols0 (py "RevenueGBP") = Ok v ->
  (forall r, In r (dated_rows parse_date d (rows df)) ->
     exists x z, as_float (cell_at p r) = Ok x /\ as_float (cell_at v r) = Ok z) ->
  exists out, Cleaner parse_date df = Ok out
    /\ length (rows out) = length (dated_rows parse_date d (rows df)).
Proof.
  intros cols0 Hrect Hd Hp Hv Hnum.
  set (ly := positions_from 0 (py "Year") cols0).
  set (cols1 := put_label ly (py "Year") cols0).
  set (lm := positions_from 0 (py "Month") cols1).
  set (cols2 := put_label lm (py "Month") cols1).
  set (lg := positions_from 0 (py "Profit_Margin_%") cols2).
  destruct (mapM_total (derived_row d p v ly lm lg)
              (dated_rows parse_date d (rows df))) as [rs Hrs].
  { intros r Hr. destruct (Hnum r Hr) as (x & z & Hx & Hz).
    pose proof Hr as Hr'. apply dated_rows_In in Hr'. destruct Hr' as [[t Ht] _].
    eexists. eapply (derived_row_Ok cols0); try eassumption.
    rewrite (dated_rows_length parse_date d (length (columns df)) (rows df) r).
    - unfold cols0. rewrite length_map. reflexivity.
    - apply rectangular_spec, Hrect.
    - exact Hr. }
  exists {| columns := put_label lg (py "Profit_Margin_%") cols2; rows := rs |}.
  split.
  - apply Cleaner_Ok. exists d, p, v. fold cols0 ly cols1 lm cols2 lg.
    split; [exact Hd|].
    split; [unfold cols2, cols1; rewrite !get_loc_put_label_other by discriminate; exact Hp|].
    split; [unfold cols2, cols1; rewrite !get_loc_put_label_other by discriminate; exact Hv|].
    split; [reflexivity | exact Hrs].
  - simpl. eapply mapM_length, Hrs.
Qed.


(** ** Cleaning a cleaned frame *)

Lemma map_fixed {A} (f : A -> A) (l : list A) :
  (forall a, In a l -> f a = a) -> map f l = l.
Proof.
  induction l as [|a l IH]; intros H; simpl; [reflexivity|].
  rewrite H by (left; reflexivity). f_equal. apply IH.
  intros x Hx. apply H. right. exact Hx.
Qed.

Lemma filter_all {A} (p : A -> bool) (l : list A) :
  (forall a, In a l -> p a = true) -> List.filter p l = l.
Proof.
  induction l as [|a l IH]; intros H; simpl; [reflexivity|].
  rewrite H by (left; reflexivity). f_equal. apply IH.
  intros x Hx. apply H. right. exact Hx.
Qed.

(** The first three stages do nothing to rows with a timestamp that are
    distinct and that the sort leaves in place. *)
Lemma dated_rows_id (parse_date : cell -> option Timestamp) (d : nat)
    (l : list row) :
  (forall r, In r l -> exists t, r !! d = Some (Time t)) ->
  List.NoDup (map row_norm l) ->
  sort (fun r s => na_last_leb true (cell_at d r) (cell_at d s)) l = l ->
  dated_rows parse_date d l = l.
Proof.
  intros Ht Hnd Hs. unfold dated_rows.
  rewrite (map_fixed (fun r => <[d:=to_datetime parse_date (cell_at d r)]> r)).
  - rewrite keep_first_id; [|exact Hnd|intros r _ []].
    rewrite filter_all; [exact Hs|].
    intros r Hr. destruct (Ht r Hr) as [t Hrt].
    rewrite (cell_at_lookup _ _ _ Hrt). reflexivity.
  - intros r Hr. destruct (Ht r Hr) as [t Hrt].
    rewrite (cell_at_lookup _ _ _ Hrt). apply list_insert_id, Hrt.
Qed.

Lemma derived_row_fresh (d p v : nat) (r r' : row) (t : Timestamp) :
  derived_row d p v [] [] [] r = Ok r' ->
  d < length r -> p < length r -> v < length r ->
  r !! d = Some (Time t) ->
  derived_shape d p v (length r) r'.
Proof.
  intros H Ld Lp Lv Ht. apply derived_row_inv in H.
  destruct H as (y & m & x & z & Hy & Hm & Hx & Hz & ->). simpl in *.
  unfold cell_at in Hy, Hm, Hx, Hz.
  rewrite lookup_app_l in Hm by lia.
  rewrite lookup_app_l in Hx by (rewrite length_app; simpl; lia).
  rewrite lookup_app_l in Hx by lia.
  rewrite lookup_app_l in Hz by (rewrite length_app; simpl; lia).
  rewrite lookup_app_l in Hz by lia.
  rewrite Ht in Hy, Hm. simpl in Hy, Hm.
  injection Hy as <-. injection Hm as <-.
  exists r, t, x, z.
  split; [reflexivity|]. split; [exact Ht|].
  split; [exact Hx|]. split; [exact Hz|].
  rewrite <- !app_assoc. reflexivity.
Qed.

Lemma derived_row_again (d p v n : nat) (r' : row) :
  d < n -> p < n -> v < n ->
  derived_shape d p v n r' ->
  derived_row d p v [n] [S n] [S (S n)] r' = Ok r'.
Proof.
  intros Ld Lp Lv (r & t & x & z & Hn & Ht & Hx & Hz & ->). subst n.
  set (y := Int (ts_year t)). set (m := Str (month_name (ts_month t))).
  set (g := Num (mul (div x z) (of_Z 100))).
  assert (Hy : (r ++ [y; m; g]) !! length r = Some y).
  { rewrite lookup_app_r by lia. rewrite Nat.sub_diag. reflexivity. }
  assert (Hm : (r ++ [y; m; g]) !! S (length r) = Some m).
  { rewrite lookup_app_r by lia.
    replace (S (length r) - length r) with 1 by lia. reflexivity. }
  assert (Hg : (r ++ [y; m; g]) !! S (S (length r)) = Some g).
  { rewrite lookup_app_r by lia.
    replace (S (S (length r)) - length r) with 2 by lia. reflexivity. }
  assert (Hcell : forall i, i < length r ->
            cell_at i (r ++ [y; m; g]) = cell_at i r).
  { intros i Hi. unfold cell_at. rewrite lookup_app_l by assumption. reflexivity. }
  apply derived_row_inv. exists y, m, x, z.
  unfold put_cell. rewrite !set_cells_id by assumption.
  rewrite !Hcell by assumption. rewrite (cell_at_lookup _ _ _ Ht).
  repeat split; assumption || reflexivity.
Qed.

Lemma Cleaner_fixed (parse_date : cell -> option Timestamp) (out : DataFrame)
    (cols0 : list pystr) (d p v : nat) :
  map clean_column_name cols0 = cols0 ->
  ~ In (py "Year") cols0 -> ~ In (py "Month") cols0 ->
  ~ In (py "Profit_Margin_%") cols0 ->
  get_loc cols0 (py "Date") = Ok d ->
  get_loc cols0 (py "ProfitGBP") = Ok p ->
  get_loc cols0 (py "RevenueGBP") = Ok v ->
  columns out = cols0 ++ [py "Year"; py "Month"; py "Profit_Margin_%"] ->
  (forall r', In r' (rows out) -> derived_shape d p v (length cols0) r') ->
  List.NoDup (map row_norm (rows out)) ->
  sort (fun r s => na_last_leb true (cell_at d r) (cell_at d s)) (rows out)
  = rows out ->
  Cleaner parse_date out = Ok out.
Proof.
  intros Hfix Hy Hm Hg Hd Hp Hv Hc Hshape Hnd Hs.
  destruct (fresh_labels cols0 Hy Hm Hg) as (Ey & Em & Eg).
  set (n := length cols0).
  assert (Ld : d < n) by (eapply get_loc_lt, Hd).
  assert (Lp : p < n) by (eapply get_loc_lt, Hp).
  assert (Lv : v < n) by (eapply get_loc_lt, Hv).
  assert (Hcols : map clean_column_name (columns out) = columns out).
  { rewrite Hc, map_app, Hfix. reflexivity. }
  assert (Hc' : columns out
                = ((cols0 ++ [py "Year"]) ++ [py "Month"]) ++ [py "Profit_Margin_%"]).
  { rewrite Hc, <- !app_assoc. reflexivity. }
  assert (Py : positions_from 0 (py "Year") (columns out) = [n]).
  { rewrite Hc', !positions_snoc_other by discriminate.
    apply positions_app_new, Ey. }
  assert (Pm : positions_from 0 (py "Month") (columns out) = [S n]).
  { rewrite Hc', positions_snoc_other by discriminate.
    rewrite (positions_app_new _ _ Em), length_app. simpl.
    f_equal. unfold n. lia. }
  assert (Pg : positions_from 0 (py "Profit_Margin_%") (columns out) = [S (S n)]).
  { rewrite Hc', (positions_app_new _ _ Eg), !length_app. simpl.
    f_equal. unfold n. lia. }
  assert (Gl : forall name, name <> py "Year" -> name <> py "Month" ->
            name <> py "Profit_Margin_%" ->
            get_loc (columns out) name = get_loc cols0 name).
  { intros name H1 H2 H3. rewrite Hc', !get_loc_snoc_other by assumption.
    reflexivity. }
  apply Cleaner_Ok. unfold cleaned. rewrite Hcols, Py. simpl put_label.
  rewrite Pm. simpl put_label. rewrite Pg. simpl put_label.
  exists d, p, v. rewrite !Gl by discriminate.
  repeat (split; [assumption || reflexivity|]).
  rewrite dated_rows_id; [| |exact Hnd|exact Hs].
  - apply mapM_Ok. apply Forall2_same_length_lookup_2; [reflexivity|].
    intros i a b Ha Hb. rewrite Ha in Hb. injection Hb as <-.
    apply derived_row_again; try assumption.
    apply Hshape. apply list_elem_of_In. eapply list_elem_of_lookup_2, Ha.
  - intros r' Hr'. destruct (Hshape r' Hr') as (r & t & x & z & Hn & Ht & _ & _ & ->).
    exists t. rewrite lookup_app_l by lia. exact Ht.
Qed.

Lemma Forall2_Sorted_keys {A K} (key : A -> K) (R : K -> K -> Prop)
    (l l' : list A) :
  Forall2 (fun a b => key b = key a) l l' ->
  StronglySorted (fun a b => R (key a) (key b)) l ->
  StronglySorted (fun a b => R (key a) (key b)) l'.
Proof.
  intros H Hs. apply Forall2_map_eq in H.
  apply (StronglySorted_map key R). rewrite H.
  apply (StronglySorted_map key R). exact Hs.
Qed.

(** The rows of the cleaned frame are in the order of [sort_values]. *)
Lemma cleaned_sorted_by_date (parse_date : cell -> option Timestamp)
    (df out : DataFrame) :
  Cleaner parse_date df = Ok out ->
  exists d,
    get_loc (columns out) (py "Date") = Ok d
    /\ StronglySorted
         (fun r s => na_last_leb true (cell_at d r) (cell_at d s) = true)
         (rows out).
Proof.
  intros H. apply Cleaner_Ok in H.
  destruct H as (d & p & v & Hd & Hp & Hv & Hc & Hr).
  destruct (cleaned_Date_positions _ d Hd) as (Hy & Hm & Hg & Hloc).
  apply mapM_Ok in Hr.
  exists d. split; [rewrite Hc; exact Hloc|].
  eapply (Forall2_Sorted_keys (cell_at d)
            (fun a b => na_last_leb true a b = true));
    [|apply dated_rows_sorted].
  eapply Forall2_In_impl; [|exact Hr]. intros r r' Hin Hrr. simpl in Hrr.
  destruct (dated_rows_In _ _ _ _ Hin) as [[t Ht] _].
  unfold cell_at. f_equal.
  eapply derived_row_keeps; try eassumption.
  eapply lookup_lt_Some, Ht.
Qed.

(** C4, as the code has it.  On a rectangular input whose cleaned labels
    are left as they are by a second cleaning and are none of [Year],
    [Month], [Profit_Margin_%], the frame [Cleaner] returns is a fixed point
    of [Cleaner] (no row is dropped, no column is added or changed) as soon
    as sorting it by [Date] again leaves it as it is; a stable sort does,
    and so does any sort when no two rows have the same date. *)
Theorem Cleaner_idempotent (parse_date : cell -> option Timestamp)
    (df out : DataFrame) :
  rectangular df = true ->
  map clean_column_name (map clean_column_name (columns df))
  = map clean_column_name (columns df) ->
  ~ In (py "Year") (map clean_column_name (columns df)) ->
  ~ In (py "Month") (map clean_column_name (columns df)) ->
  ~ In (py "Profit_Margin_%") (map clean_column_name (columns df)) ->
  Cleaner parse_date df = Ok out ->
  sort_values (py "Date") true out = Ok out ->
  Cleaner parse_date out = Ok out.
Proof.
  intros Hrect Hfix Hy Hm Hg H Hsort.
  pose proof (cleaned_rows_NoDup parse_date df out H Hy Hm Hg) as Hnd.
  destruct (cleaned_sorted_by_date parse_date df out H) as (d' & Hd' & _).
  destruct (cleaned_fresh parse_date df out H Hy Hm Hg)
    as (d & p & v & Hd & Hp & Hv & Hc & Hr).
  set (cols0 := map clean_column_name (columns df)) in *.
  assert (Ld : d < length cols0) by (eapply get_loc_lt, Hd).
  assert (Lp : p < length cols0) by (eapply get_loc_lt, Hp).
  assert (Lv : v < length cols0) by (eapply get_loc_lt, Hv).
  assert (Hlen : forall r, In r (dated_rows parse_date d (rows df)) ->
            length r = length cols0).
  { intros r Hr'. unfold cols0. rewrite length_map.
    eapply dated_rows_length; [|exact Hr']. apply rectangular_spec, Hrect. }
  assert (Edd : d' = d).
  { rewrite Hc in Hd'.
    change (cols0 ++ [py "Year"; py "Month"; py "Profit_Margin_%"])
      with (cols0 ++ [py "Year"] ++ [py "Month"] ++ [py "Profit_Margin_%"])
      in Hd'.
    rewrite !app_assoc, !get_loc_snoc_other, Hd in Hd' by discriminate.
    congruence. }
  subst d'.
  eapply (Cleaner_fixed parse_date out cols0 d p v); try eassumption.
  - intros r' Hr'. destruct (Forall2_In_r _ _ _ _ Hr Hr') as (r & Hin & Hrr).
    pose proof (Hlen r Hin) as Hl. rewrite <- Hl.
    destruct (dated_rows_In _ _ _ _ Hin) as [[t Ht] _].
    eapply derived_row_fresh; try eassumption; lia.
  - apply sort_values_Ok in Hsort. destruct Hsort as (i & Hi & Heq).
    rewrite Hd' in Hi. injection Hi as <-.
    apply (f_equal rows) in Heq. simpl in Heq. symmetry. exact Heq.
Qed.

(** *** Rows of distinct dates *)

Lemma lex_leb_antisym (a b : list Z) :
  lex_leb a b = true -> lex_leb b a = true -> a = b.
Proof.
  revert b; induction a as [|x a IH]; intros [|y b]; simpl; try congruence.
  destruct (Z.ltb_spec x y), (Z.ltb_spec y x); try congruence; try lia.
  intros H1 H2. f_equal; [lia | apply IH; assumption].
Qed.

Lemma ts_leb_antisym (t u : Timestamp) :
  ts_leb t u = true -> ts_leb u t = true -> t = u.
Proof.
  unfold ts_leb. intros H1 H2.
  pose proof (lex_leb_antisym _ _ H1 H2) as E.
  destruct t as [y m d n], u as [y' m' d' n']. unfold ts_fields in E. simpl in E.
  injection E as -> Hm -> ->. apply month_number_inj in Hm. subst. reflexivity.
Qed.

(** Of two sorted rearrangements of a list, one of them without ties, there
    is one only. *)
Lemma sorted_perm_unique {A} (le : A -> A -> bool) (l1 l2 : list A) :
  StronglySorted (fun a b => le a b = true /\ le b a = false) l1 ->
  StronglySorted (fun a b => le a b = true) l2 ->
  Permutation l1 l2 -> l1 = l2.
Proof.
  intros H1; revert l2. induction H1 as [|a l1 Hs IH Ha]; intros l2 H2 Hp.
  - apply Permutation_nil in Hp. congruence.
  - destruct H2 as [|b l2 Hs2 Hb].
    + apply Permutation_sym, Permutation_nil in Hp. discriminate.
    + rewrite List.Forall_forall in Ha, Hb.
      assert (E : a = b).
      { assert (Hbin : In b (a :: l1))
          by (apply (Permutation_in _ (Permutation_sym Hp)); left; reflexivity).
        assert (Hain : In a (b :: l2))
          by (apply (Permutation_in _ Hp); left; reflexivity).
        destruct Hbin as [E|Hbin]; [exact E|].
        destruct Hain as [E|Hain]; [congruence|].
        destruct (Ha b Hbin) as [_ Hf]. rewrite (Hb a Hain) in Hf. discriminate. }
      subst b. f_equal. apply IH; [exact Hs2|].
      eapply Permutation_cons_inv, Hp.
Qed.

Lemma StronglySorted_strict {A} (R S : A -> A -> Prop) (l : list A) :
  StronglySorted R l -> List.NoDup l ->
  (forall a b, In a l -> In b l -> R a b -> a <> b -> S a b) ->
  StronglySorted S l.
Proof.
  induction 1 as [|a l Hs IH Ha]; intros Hnd HS; constructor.
  - apply IH.
    + apply List.NoDup_cons_iff in Hnd. apply Hnd.
    + intros x y Hx Hy. apply HS; right; assumption.
  - rewrite List.Forall_forall in *. intros b Hb.
    apply HS; [left; reflexivity | right; exact Hb | apply Ha, Hb|].
    intros ->. apply List.NoDup_cons_iff in Hnd. tauto.
Qed.

Lemma cleaned_date_cells (parse_date : cell -> option Timestamp)
    (df out : DataFrame) (d : nat) (r' : row) :
  Cleaner parse_date df = Ok out ->
  get_loc (columns out) (py "Date") = Ok d ->
  In r' (rows out) ->
  exists t, cell_at d r' = Time t.
Proof.
  intros H Hd' Hin. apply Cleaner_Ok in H.
  destruct H as (d0 & p & v & Hd & Hp & Hv & Hc & Hr).
  destruct (cleaned_Date_positions _ d0 Hd) as (Hy & Hm & Hg & Hloc).
  rewrite Hc, Hloc in Hd'. injection Hd' as <-.
  apply mapM_Ok in Hr.
  destruct (Forall2_In_r _ _ _ _ Hr Hin) as (r & Hrin & Hrr).
  destruct (dated_rows_In _ _ _ _ Hrin) as [[t Ht] _].
  exists t. apply cell_at_lookup. rewrite <- Ht.
  eapply derived_row_keeps; try eassumption.
  eapply lookup_lt_Some, Ht.
Qed.

(** When no two rows of a cleaned frame have the same date, sorting it by
    [Date] again leaves it as it is, whatever the sorting algorithm. *)
Lemma sort_values_cleaned_distinct (parse_date : cell -> option Timestamp)
    (df out : DataFrame) :
  Cleaner parse_date df = Ok out ->
  (forall d, get_loc (columns out) (py "Date") = Ok d ->
     List.NoDup (map (cell_at d) (rows out))) ->
  sort_values (py "Date") true out = Ok out.
Proof.
  intros H Hnd.
  destruct (cleaned_sorted_by_date parse_date df out H) as (d & Hd & Hs).
  specialize (Hnd d Hd).
  pose proof (fun r' => cleaned_date_cells parse_date df out d r' H Hd) as Htime.
  apply sort_values_Ok. exists d. split; [exact Hd|].
  destruct out as [co ro]. simpl in *. f_equal.
  set (le := fun r s : row => na_last_leb true (cell_at d r) (cell_at d s)).
  apply (sorted_perm_unique le).
  - apply (StronglySorted_map (cell_at d)
             (fun a b => na_last_leb true a b = true
                         /\ na_last_leb true b a = false)).
    apply (StronglySorted_map (cell_at d)
             (fun a b => na_last_leb true a b = true)) in Hs.
    eapply StronglySorted_strict; [exact Hs | exact Hnd |].
    intros a b Ha Hb Hab Hne. split; [exact Hab|].
    destruct (na_last_leb true b a) eqn:Hba; [|reflexivity].
    exfalso. apply Hne.
    apply in_map_iff in Ha, Hb.
    destruct Ha as (ra & <- & Hra), Hb as (rb & <- & Hrb).
    destruct (Htime ra Hra) as [t Et], (Htime rb Hrb) as [u Eu].
    rewrite Et, Eu in *. f_equal. apply ts_leb_antisym; assumption.
  - apply sort_sorted.
    + intros a b. apply na_last_leb_total.
    + intros a b c. apply na_last_leb_trans.
  - symmetry. apply sort_perm.
Qed.

(** ** The profit margin *)

Lemma of_Z_100 : of_Z 100 = S754_finite false 7036874417766400 (-46).
Proof. vm_compute. reflexivity. Qed.

(** [(x / z) * 100] for a zero [z]. *)
Lemma margin_zero_revenue (x z : float64) :
  is_zero z = true ->
  mul (div x z) (of_Z 100)
  = if is_nan x || is_zero x then nan
    else S754_infinity (xorb (f64_sign x) (f64_sign z)).
Proof.
  rewrite of_Z_100. destruct z as [sz| | |]; try discriminate. intros _.
  destruct x as [sx|sx| |sx mx ex]; simpl; try reflexivity.
  - rewrite xorb_false_r. reflexivity.
  - rewrite xorb_false_r. reflexivity.
Qed.

(** In the cleaned frame, the margin of a row is computed from the profit
    and the revenue of that row. *)
Lemma cleaned_margin (parse_date : cell -> option Timestamp)
    (df out : DataFrame) (r' : row) (p v g : nat) :
  rectangular df = true ->
  Cleaner parse_date df = Ok out ->
  In r' (rows out) ->
  get_loc (columns out) (py "ProfitGBP") = Ok p ->
  get_loc (columns out) (py "RevenueGBP") = Ok v ->
  get_loc (columns out) (py "Profit_Margin_%") = Ok g ->
  exists x z,
    as_float (cell_at p r') = Ok x
    /\ as_float (cell_at v r') = Ok z
    /\ cell_at g r' = Num (mul (div x z) (of_Z 100)).
Proof.
  intros Hrect H Hin Hp Hv Hg. apply Cleaner_Ok in H.
  destruct H as (d & p0 & v0 & Hd & Hp0 & Hv0 & Hc & Hr).
  set (cols0 := map clean_column_name (columns df)) in *.
  set (ly := positions_from 0 (py "Year") cols0) in *.
  set (cols1 := put_label ly (py "Year") cols0) in *.
  set (lm := positions_from 0 (py "Month") cols1) in *.
  set (cols2 := put_label lm (py "Month") cols1) in *.
  rewrite Hc in Hp, Hv, Hg.
  rewrite get_loc_put_label_other in Hp, Hv by discriminate.
  rewrite Hp0 in Hp. injection Hp as <-. rewrite Hv0 in Hv. injection Hv as <-.
  apply mapM_Ok in Hr.
  destruct (Forall2_In_r _ _ _ _ Hr Hin) as (r & Hrin & Hrr).
  apply derived_row_inv in Hrr.
  destruct Hrr as (y & m & x & z & _ & _ & Hx & Hz & ->).
  set (r2 := put_cell lm m (put_cell ly y r)) in *.
  assert (Hlen : length r2 = length cols2).
  { unfold r2, cols2. apply put_cell_length. unfold cols1. apply put_cell_length.
    unfold cols0. rewrite length_map.
    eapply dated_rows_length; [|exact Hrin]. apply rectangular_spec, Hrect. }
  exists x, z.
  assert (Hother : forall name i, name <> py "Profit_Margin_%" ->
            get_loc cols2 name = Ok i ->
            cell_at i (put_cell (positions_from 0 (py "Profit_Margin_%") cols2)
                         (Num (mul (div x z) (of_Z 100))) r2) = cell_at i r2).
  { intros name i Hne Hi. apply cell_at_put_cell_ne.
    - apply (positions_other _ name); [congruence | apply get_loc_lookup, Hi].
    - rewrite Hlen. eapply get_loc_lt, Hi. }
  rewrite (Hother (py "ProfitGBP") p0 ltac:(discriminate) Hp0).
  rewrite (Hother (py "RevenueGBP") v0 ltac:(discriminate) Hv0).
  split; [exact Hx|]. split; [exact Hz|].
  apply cell_at_lookup.
  destruct (positions_from 0 (py "Profit_Margin_%") cols2) as [|i l] eqn:Elg;
    simpl in Hg |- *.
  - apply get_loc_Ok in Hg. rewrite (positions_app_new _ _ Elg) in Hg.
    injection Hg as <-. apply list_lookup_middle. symmetry. exact Hlen.
  - pose proof Hg as Hg'. apply get_loc_Ok in Hg'. rewrite Elg in Hg'.
    injection Hg' as -> ->. apply list_lookup_insert_eq. simpl.
    rewrite Hlen. eapply get_loc_lt, Hg.
Qed.

(** C1, as the code has it.  In a row of the cleaned frame whose revenue is
    zero, the margin is missing (NaN) exactly when the profit is zero or
    missing; for any other profit it is an infinity, of the sign of the
    profit (reversed for a revenue of [-0.0]). *)
Theorem margin_of_zero_revenue (parse_date : cell -> option Timestamp)
    (df out : DataFrame) (r : row) (p v g : nat) (z : float64) :
  rectangular df = true ->
  Cleaner parse_date df = Ok out ->
  In r (rows out) ->
  get_loc (columns out) (py "ProfitGBP") = Ok p ->
  get_loc (columns out) (py "RevenueGBP") = Ok v ->
  get_loc (columns out) (py "Profit_Margin_%") = Ok g ->
  as_float (cell_at v r) = Ok z ->
  is_zero z = true ->
  exists x,
    as_float (cell_at p r) = Ok x
    /\ cell_at g r
       = Num (if is_nan x || is_zero x then nan
              else S754_infinity (xorb (f64_sign x) (f64_sign z))).
Proof.
  intros Hrect H Hin Hp Hv Hg Hz Hzero.
  destruct (cleaned_margin parse_date df out r p v g Hrect H Hin Hp Hv Hg)
    as (x & z' & Hx & Hz' & Hm).
  rewrite Hz in Hz'. injection Hz' as <-.
  exists x. split; [exact Hx|].
  rewrite Hm, margin_zero_revenue by exact Hzero. reflexivity.
Qed.

(** ** Grouped aggregates *)








(** ** Descending order *)







(** ** The peak month *)





(** ** The script *)



End Properties.

(** ** Where the claims fail, whatever the sorting algorithm *)

Lemma sort_pair {sorter : Sorter} {A} (le : A -> A -> bool) (a b : A) :
  sort le [a; b] = [a; b] \/ sort le [a; b] = [b; a].
Proof.
  apply Permutation_length_2_inv. symmetry. apply sort_perm.
Qed.

(** Evaluate the list that is sorted, then the sort of one or two rows. *)
Ltac eval_sorted_list :=
  match goal with
  | |- context [@sort ?S ?A ?le ?l] =>
      let l' := eval vm_compute in l in
      change (@sort S A le l) with (@sort S A le l')
  end.

Ltac sort_small :=
  eval_sorted_list;
  match goal with
  | |- context [@sort ?S ?A ?le [?a]] =>
      rewrite (@sort_singleton S A le a)
  | |- context [@sort ?S ?A ?le [?a; ?b]] =>
      let E := fresh "E" in
      destruct (@sort_pair S A le a b) as [E|E]; rewrite E
  end.

Ltac eval_Cleaner d p v :=
  apply Cleaner_Ok; exists d, p, v;
  split; [reflexivity|]; split; [reflexivity|]; split; [reflexivity|];
  split; [reflexivity|];
  unfold dated_rows; sort_small; vm_compute; reflexivity.

Lemma Cleaner_zero_revenue (sorter : Sorter) :
  Cleaner Sample.parse_date Sample.zero_revenue = Ok Sample.cleaned_zero_revenue.
Proof. eval_Cleaner 0 5 4. Qed.

Lemma Cleaner_with_year (sorter : Sorter) :
  Cleaner Sample.parse_date Sample.with_year = Ok Sample.cleaned_with_year.
Proof. eval_Cleaner 0 1 2. Qed.

Lemma Cleaner_with_nbsp_label (sorter : Sorter) :
  Cleaner Sample.parse_date Sample.with_nbsp_label
  = Ok Sample.cleaned_with_nbsp_label.
Proof. eval_Cleaner 0 1 2. Qed.

(** C1, as the claim states it, fails: the cleaned frame of one sale with
    revenue [0] and profit [5] has the margin [+inf], not a missing value. *)
Lemma zero_revenue_margin_infinite :
  ~ (exists sorter : Sorter,
       forall parse_date df out r v g z,
         Cleaner parse_date df = Ok out ->
         In r (rows out) ->
         get_loc (columns out) (py "RevenueGBP") = Ok v ->
         get_loc (columns out) (py "Profit_Margin_%") = Ok g ->
         as_float (cell_at v r) = Ok z ->
         is_zero z = true ->
         isna (cell_at g r) = true).
Proof.
  intros [sorter H].
  specialize (H Sample.parse_date Sample.zero_revenue Sample.cleaned_zero_revenue
                (nth 0 (rows Sample.cleaned_zero_revenue) []) 4 8 (S754_zero false)
                (Cleaner_zero_revenue sorter)).
  assert (Hx : isna (cell_at 8 (nth 0 (rows Sample.cleaned_zero_revenue) [])) = true).
  { apply H; try reflexivity. left. reflexivity. }
  vm_compute in Hx. discriminate Hx.
Qed.

(** C4, as the claim states it, fails on two inputs.  With a [Year] column
    in the input, the cleaned frame has two equal rows and the second
    cleaning drops one.  With a label that cleaning leaves with a trailing
    no-break space, the second cleaning renames the column. *)
Lemma Cleaner_not_idempotent :
  (forall sorter : Sorter,
     exists out, Cleaner Sample.parse_date Sample.with_year = Ok out
       /\ Cleaner Sample.parse_date out <> Ok out)
  /\ (forall sorter : Sorter,
        exists out, Cleaner Sample.parse_date Sample.with_nbsp_label = Ok out
          /\ Cleaner Sample.parse_date out <> Ok out).
Proof.
  split; intros sorter.
  - exists Sample.cleaned_with_year. split; [apply Cleaner_with_year|].
    intros H. apply Cleaner_Ok in H.
    destruct H as (d & p & v & Hd & _ & _ & _ & H).
    vm_compute in Hd. injection Hd as <-.
    apply mapM_length in H. revert H.
    unfold dated_rows. sort_small. discriminate.
  - exists Sample.cleaned_with_nbsp_label.
    split; [apply Cleaner_with_nbsp_label|].
    intros H. apply Cleaner_Ok in H.
    destruct H as (_ & _ & _ & _ & _ & _ & H & _).
    vm_compute in H. discriminate H.
Qed.

(** C6, as the claim states it, fails: a [Year] column of the input is
    overwritten after the duplicates were dropped, which makes two rows equal
    that differed in that column only. *)
Lemma cleaned_rows_duplicate :
  ~ (exists sorter : Sorter,
       forall parse_date df out,
         Cleaner parse_date df = Ok out -> no_duplicate_rows out).
Proof.
  intros [sorter H].
  specialize (H Sample.parse_date Sample.with_year Sample.cleaned_with_year
                (Cleaner_with_year sorter) 0 1).
  specialize (H _ _ eq_refl eq_refl).
  discriminate H. vm_compute. reflexivity.
Qed.

(** ** The stable sort *)

(** With a stable sort, sorting a cleaned frame by [Date] again leaves it
    as it is. *)
Lemma stable_sort_values_cleaned (parse_date : cell -> option Timestamp)
    (df out : DataFrame) :
  @Cleaner stable_sorter parse_date df = Ok out ->
  @sort_values stable_sorter (py "Date") true out = Ok out.
Proof.
  intros H. destruct (cleaned_sorted_by_date parse_date df out H) as (d & Hd & Hs).
  apply sort_values_Ok. exists d. split; [exact Hd|].
  destruct out as [co ro]. simpl in *. f_equal. symmetry.
  apply stable_sort_sorted_id, StronglySorted_Sorted, Hs.
Qed.

(** ** The theorems on the samples *)

Lemma margin_of_zero_revenue_witness :
  Cleaner Sample.parse_date Sample.sales = Ok Sample.cleaned_sales
  /\ as_float (cell_at 4 (nth 1 (rows Sample.cleaned_sales) []))
     = Ok (S754_zero false)
  /\ exists x,
       as_float (cell_at 5 (nth 1 (rows Sample.cleaned_sales) [])) = Ok x
       /\ cell_at 8 (nth 1 (rows Sample.cleaned_sales) [])
          = Num (if is_nan x || is_zero x then nan
                 else S754_infinity
                        (xorb (f64_sign x) (f64_sign (S754_zero false)))).
Proof.
  split; [vm_compute; reflexivity|]. split; [vm_compute; reflexivity|].
  apply (margin_of_zero_revenue Sample.parse_date Sample.sales
           Sample.cleaned_sales (nth 1 (rows Sample.cleaned_sales) [])
           5 4 8 (S754_zero false));
    try (vm_compute; reflexivity).
  vm_compute. right. left. reflexivity.
Defined.


Lemma Cleaner_idempotent_witness :
  Cleaner Sample.parse_date Sample.sales = Ok Sample.cleaned_sales
  /\ Cleaner Sample.parse_date Sample.cleaned_sales = Ok Sample.cleaned_sales.
Proof.
  split; [vm_compute; reflexivity|].
  apply (Cleaner_idempotent Sample.parse_date Sample.sales).
  - vm_compute. reflexivity.
  - vm_compute. reflexivity.
  - vm_compute. intuition discriminate.
  - vm_compute. intuition discriminate.
  - vm_compute. intuition discriminate.
  - vm_compute. reflexivity.
  - vm_compute. reflexivity.
Defined.

Lemma cleaned_dates_sorted_witness :
  exists (d : nat) (ts : list Timestamp),
    get_loc (columns Sample.cleaned_sales) (py "Date") = Ok d
    /\ map (fun r => r !! d) (rows Sample.cleaned_sales)
       = map (fun t => Some (Time t)) ts
    /\ StronglySorted (fun t u => ts_leb t u = true) ts.
Proof.
  apply (cleaned_dates_sorted Sample.parse_date Sample.sales).
  vm_compute. reflexivity.
Defined.

Lemma cleaned_rows_distinct_witness : no_duplicate_rows Sample.cleaned_sales.
Proof.
  apply (cleaned_rows_distinct Sample.parse_date Sample.sales).
  - vm_compute. reflexivity.
  - vm_compute. intuition discriminate.
  - vm_compute. intuition discriminate.
  - vm_compute. intuition discriminate.
Defined.





(** * Further properties of the script *)

(** ** Labels that are clean already *)

Lemma lstrip_no_space (s : pystr) :
  Forall (fun ch => isspace ch = false) s -> lstrip s = s.
Proof.
  destruct 1 as [|c s Hc Hs]; simpl; [reflexivity|].
  rewrite Hc. reflexivity.
Qed.

Lemma strip_no_space (s : pystr) :
  Forall (fun ch => isspace ch = false) s -> strip s = s.
Proof.
  intros H. unfold strip, rstrip. rewrite (lstrip_no_space s H).
  rewrite lstrip_no_space.
  - apply rev_involutive.
  - rewrite List.Forall_forall in *. intros ch Hch. apply H, in_rev, Hch.
Qed.

Lemma replace_scan_no_head (a : N) (old new s : pystr) :
  Forall (fun ch => ch <> a) s -> replace_scan (a :: old) new 0 s = s.
Proof.
  induction 1 as [|c s Hc Hs IH]; [reflexivity|].
  cbn [replace_scan startswith].
  destruct (N.eqb_spec a c) as [E|E]; [congruence|].
  cbn [andb]. rewrite IH. reflexivity.
Qed.

Lemma remove_parens_no_parens (s : pystr) :
  Forall (fun ch => is_paren ch = false) s -> remove_parens s = s.
Proof.
  unfold remove_parens. induction 1 as [|c s Hc Hs IH]; simpl; [reflexivity|].
  rewrite Hc. simpl. rewrite IH. reflexivity.
Qed.

(** X1.  A label that holds no whitespace and no parenthesis is left as it
    is by the cleaning of the column names. *)
Theorem clean_column_name_fixed (c : pystr) :
  Forall (fun ch => isspace ch = false /\ is_paren ch = false) c ->
  clean_column_name c = c.
Proof.
  intros H. unfold clean_column_name.
  assert (Hs : Forall (fun ch => isspace ch = false) c)
    by (eapply Forall_impl; [exact H | intros ch [? ?]; assumption]).
  assert (Hp : Forall (fun ch => is_paren ch = false) c)
    by (eapply Forall_impl; [exact H | intros ch [? ?]; assumption]).
  rewrite (strip_no_space c Hs).
  change (replace (py " ") (py "_") c) with (replace_scan [32%N] [95%N] 0 c).
  rewrite replace_scan_no_head.
  - change (replace (py "(" ++ [pound_sign] ++ py ")") (py "GBP") c)
      with (replace_scan [40%N; pound_sign; 41%N] (py "GBP") 0 c).
    rewrite replace_scan_no_head; [apply remove_parens_no_parens, Hp|].
    eapply Forall_impl; [exact Hp|]. intros ch Hch ->. discriminate Hch.
  - eapply Forall_impl; [exact Hs|]. intros ch Hch ->. discriminate Hch.
Qed.

(** ** The two removals of line 33 *)

Lemma isna_norm (c : cell) : isna (cell_norm c) = isna c.
Proof. destruct c as [|[]| | |]; reflexivity. Qed.

Lemma isna_cell_at_norm (i : nat) (r s : row) :
  row_norm r = row_norm s -> isna (cell_at i r) = isna (cell_at i s).
Proof.
  intros H.
  assert (E : row_norm r !! i = row_norm s !! i) by (rewrite H; reflexivity).
  rewrite !row_norm_lookup in E. unfold cell_at.
  destruct (r !! i) as [a|], (s !! i) as [b|]; simpl in *; try discriminate;
    [|reflexivity].
  injection E as E. rewrite <- (isna_norm a), <- (isna_norm b), E. reflexivity.
Qed.

Lemma existsb_row_eqb_filter (p : row -> bool) (r : row) (seen : list row) :
  (forall a b, row_norm a = row_norm b -> p a = p b) ->
  p r = true ->
  existsb (row_eqb r) (List.filter p seen) = existsb (row_eqb r) seen.
Proof.
  intros Hp Hr. apply eq_iff_eq_true. rewrite !existsb_exists. split.
  - intros (s & Hs & E). apply filter_In in Hs. exists s. tauto.
  - intros (s & Hs & E). exists s. split; [|exact E].
    apply filter_In. split; [exact Hs|].
    apply row_eqb_norm in E. rewrite <- (Hp r s E). exact Hr.
Qed.

Lemma keep_first_filter (p : row -> bool) (seen rs : list row) :
  (forall a b, row_norm a = row_norm b -> p a = p b) ->
  keep_first (List.filter p seen) (List.filter p rs)
  = List.filter p (keep_first seen rs).
Proof.
  intros Hp. revert seen; induction rs as [|r rs IH]; intros seen; simpl;
    [reflexivity|].
  destruct (p r) eqn:Hr; simpl.
  - rewrite (existsb_row_eqb_filter p r seen Hp Hr).
    destruct (existsb (row_eqb r) seen); [apply IH|].
    simpl. rewrite Hr. f_equal. rewrite <- IH. simpl. rewrite Hr. reflexivity.
  - destruct (existsb (row_eqb r) seen); [apply IH|].
    simpl. rewrite Hr. rewrite <- IH. simpl. rewrite Hr. reflexivity.
Qed.

(** X2.  The two removals of line 33 can be done in either order: dropping
    the duplicates and then the rows without date gives the frame (or raises
    the exception) that dropping the rows without date and then the
    duplicates gives. *)
Theorem drop_duplicates_dropna_commute (name : pystr) (df : DataFrame) :
  dropna name (drop_duplicates df)
  = dropna name df ≫= fun d => mret (drop_duplicates d).
Proof.
  unfold dropna, drop_duplicates. simpl.
  destruct (get_loc (columns df) name) as [i|e]; simpl; [|reflexivity].
  f_equal. f_equal. symmetry.
  apply (keep_first_filter (fun r => negb (isna (cell_at i r))) [] (rows df)).
  intros a b E. rewrite (isna_cell_at_norm i a b E). reflexivity.
Qed.

(** ** The dashboard traces *)










Lemma kpi_trace_Ok (df : DataFrame) (u : cell) (tr : Trace) :
  kpi_trace df u = Ok tr <->
  exists c d v,
    get_loc (columns df) (py "Confectionary") = Ok c
    /\ get_loc (columns df) (py "Date") = Ok d
    /\ get_loc (columns df) (py "RevenueGBP") = Ok v
    /\ tr = {| trace_name := u;
               trace_x := map (cell_at d)
                 (List.filter (fun r => cell_equal (cell_at c r) u) (rows df));
               trace_y := map (cell_at v)
                 (List.filter (fun r => cell_equal (cell_at c r) u) (rows df)) |}.
Proof.
  unfold kpi_trace. rewrite bind_Ok. split.
  - intros (conf & Hc & H). apply getitem_Ok in Hc. destruct Hc as (c & Hc & ->).
    apply bind_Ok in H. destruct H as (date & Hd & H).
    apply getitem_Ok in Hd. destruct Hd as (d & Hd & ->).
    apply bind_Ok in H. destruct H as (rev & Hv & H).
    apply getitem_Ok in Hv. destruct Hv as (v & Hv & ->).
    injection H as <-. exists c, d, v. auto.
  - intros (c & d & v & Hc & Hd & Hv & ->).
    exists (cell_at c). split; [apply getitem_Ok; eauto|].
    apply bind_Ok. exists (cell_at d). split; [apply getitem_Ok; eauto|].
    apply bind_Ok. exists (cell_at v). split; [apply getitem_Ok; eauto|].
    reflexivity.
Qed.


(** ** The cleaning pipeline, row by row *)

Section MoreProperties.
Context {sorter : Sorter}.

Lemma keep_first_length_le (seen rs : list row) :
  length (keep_first seen rs) <= length rs.
Proof.
  revert seen; induction rs as [|r rs IH]; intros seen; simpl; [lia|].
  destruct (existsb (row_eqb r) seen); [specialize (IH seen) | specialize (IH (r :: seen))];
    simpl; lia.
Qed.

Lemma dated_rows_length_le (parse_date : cell -> option Timestamp) (d : nat)
    (rs : list row) :
  length (dated_rows parse_date d rs) <= length rs.
Proof.
  unfold dated_rows. rewrite (Permutation_length (sort_perm _ _ _)).
  etransitivity; [apply filter_length_le|].
  etransitivity; [apply keep_first_length_le|].
  rewrite length_map. lia.
Qed.

Lemma dated_rows_covers (parse_date : cell -> option Timestamp) (d : nat)
    (rs : list row) (r0 : row) (t : Timestamp) :
  In r0 rs -> d < length r0 ->
  to_datetime parse_date (cell_at d r0) = Time t ->
  exists r, In r (dated_rows parse_date d rs)
    /\ row_eqb (<[d := Time t]> r0) r = true.
Proof.
  intros Hin Hd Ht.
  assert (H1 : In (<[d := Time t]> r0)
            (map (fun r => <[d := to_datetime parse_date (cell_at d r)]> r) rs)).
  { apply in_map_iff. exists r0. rewrite Ht. auto. }
  destruct (keep_first_covers [] _ _ H1) as [[]|H2].
  apply in_map_iff in H2. destruct H2 as (r & Hn & Hr).
  exists r. split; [|apply row_eqb_norm; symmetry; exact Hn].
  unfold dated_rows. apply sort_In. apply filter_In. split; [exact Hr|].
  rewrite (isna_cell_at_norm d _ _ Hn).
  rewrite (cell_at_lookup d _ (Time t)); [reflexivity|].
  apply list_lookup_insert_eq, Hd.
Qed.

Lemma dated_rows_numeric (parse_date : cell -> option Timestamp) (d p : nat)
    (rs : list row) (P : cell -> Prop) :
  p <> d ->
  (forall r0, In r0 rs -> P (cell_at p r0)) ->
  forall r, In r (dated_rows parse_date d rs) -> P (cell_at p r).
Proof.
  intros Hpd H r Hr. apply dated_rows_In in Hr.
  destruct Hr as [_ (r0 & Hr0 & ->)].
  unfold cell_at. rewrite list_lookup_insert_ne by congruence.
  apply H, Hr0.
Qed.

(** The rows of the cleaned frame of an input without derived labels, beside
    the rows they come from. *)
Lemma cleaned_rows_shape (parse_date : cell -> option Timestamp)
    (df out : DataFrame) :
  let cols0 := map clean_column_name (columns df) in
  rectangular df = true ->
  ~ In (py "Year") cols0 -> ~ In (py "Month") cols0 ->
  ~ In (py "Profit_Margin_%") cols0 ->
  Cleaner parse_date df = Ok out ->
  exists d p v,
    get_loc cols0 (py "Date") = Ok d
    /\ get_loc cols0 (py "ProfitGBP") = Ok p
    /\ get_loc cols0 (py "RevenueGBP") = Ok v
    /\ columns out = cols0 ++ [py "Year"; py "Month"; py "Profit_Margin_%"]
    /\ Forall2
         (fun r r' =>
            exists t x z,
              length r = length cols0
              /\ r !! d = Some (Time t)
              /\ as_float (cell_at p r) = Ok x
              /\ as_float (cell_at v r) = Ok z
              /\ r' = r ++ [Int (ts_year t); Str (month_name (ts_month t));
                            Num (mul (div x z) (of_Z 100))])
         (dated_rows parse_date d (rows df)) (rows out).
Proof.
  intros cols0 Hrect Hy Hm Hg H.
  destruct (cleaned_fresh parse_date df out H Hy Hm Hg)
    as (d & p & v & Hd & Hp & Hv & Hc & Hrows).
  exists d, p, v. repeat (split; [assumption|]).
  eapply Forall2_In_impl; [|exact Hrows].
  intros r r' Hr Hrr'. simpl in Hrr'.
  assert (Hlen : length r = length cols0).
  { unfold cols0. rewrite length_map.
    apply (dated_rows_length parse_date d _ (rows df)); [|exact Hr].
    apply rectangular_spec, Hrect. }
  pose proof Hr as Hr'. apply dated_rows_In in Hr'. destruct Hr' as [[t Ht] _].
  assert (Ld : d < length r) by (rewrite Hlen; eapply get_loc_lt, Hd).
  assert (Lp : p < length r) by (rewrite Hlen; eapply get_loc_lt, Hp).
  assert (Lv : v < length r) by (rewrite Hlen; eapply get_loc_lt, Hv).
  apply derived_row_inv in Hrr'.
  destruct Hrr' as (y & m & x' & z' & Hy' & Hm' & Hx & Hz & ->). simpl in *.
  unfold cell_at in Hy', Hm', Hx, Hz.
  rewrite lookup_app_l in Hm' by lia.
  rewrite lookup_app_l in Hx by (rewrite length_app; simpl; lia).
  rewrite lookup_app_l in Hx by lia.
  rewrite lookup_app_l in Hz by (rewrite length_app; simpl; lia).
  rewrite lookup_app_l in Hz by lia.
  rewrite Ht in Hy', Hm'. simpl in Hy', Hm'.
  injection Hy' as <-. injection Hm' as <-.
  exists t, x', z'.
  split; [exact Hlen|]. split; [exact Ht|].
  split; [exact Hx|]. split; [exact Hz|].
  rewrite <- !app_assoc. reflexivity.
Qed.

(** X4.  Where the cleaning returns, on a rectangular input whose cleaned
    labels hold none of Year, Month and Profit_Margin_%, the three derived
    columns are appended after the input's columns, and every row of the
    result is a row of the input whose date converted to a timestamp [t]:
    that row with the timestamp for its date, then the year of [t], the
    name of its month, and 100 times profit over revenue.  Nothing else is
    changed in a row, and no row is made up. *)
Theorem cleaned_rows_from_input (parse_date : cell -> option Timestamp)
    (df out : DataFrame) :
  let cols0 := map clean_column_name (columns df) in
  rectangular df = true ->
  ~ In (py "Year") cols0 -> ~ In (py "Month") cols0 ->
  ~ In (py "Profit_Margin_%") cols0 ->
  Cleaner parse_date df = Ok out ->
  exists d p v,
    get_loc cols0 (py "Date") = Ok d
    /\ get_loc cols0 (py "ProfitGBP") = Ok p
    /\ get_loc cols0 (py "RevenueGBP") = Ok v
    /\ columns out = cols0 ++ [py "Year"; py "Month"; py "Profit_Margin_%"]
    /\ forall r', In r' (rows out) ->
         exists r0 t x z,
           In r0 (rows df)
           /\ to_datetime parse_date (cell_at d r0) = Time t
           /\ as_float (cell_at p r0) = Ok x
           /\ as_float (cell_at v r0) = Ok z
           /\ r' = <[d := Time t]> r0
                   ++ [Int (ts_year t); Str (month_name (ts_month t));
                       Num (mul (div x z) (of_Z 100))].
Proof.
  intros cols0 Hrect Hy Hm Hg H.
  destruct (cleaned_rows_shape parse_date df out Hrect Hy Hm Hg H)
    as (d & p & v & Hd & Hp & Hv & Hc & Hrows).
  exists d, p, v. repeat (split; [assumption|]).
  intros r' Hr'.
  destruct (Forall2_In_r _ _ _ _ Hrows Hr') as (r & Hr & t & x & z & Hl & Ht & Hx & Hz & ->).
  pose proof Hr as Hr0. apply dated_rows_In in Hr0.
  destruct Hr0 as [_ (r0 & Hr0 & E)].
  assert (Hdl : d < length r0).
  { apply rectangular_spec with (r := r0) in Hrect; [|exact Hr0].
    apply get_loc_lt in Hd. unfold cols0 in Hd. rewrite length_map in Hd. lia. }
  assert (Hcell : to_datetime parse_date (cell_at d r0) = Time t).
  { rewrite E in Ht. rewrite list_lookup_insert_eq in Ht by exact Hdl.
    congruence. }
  assert (Hpd : p <> d).
  { apply (distinct_labels_positions cols0 (py "ProfitGBP") (py "Date"));
      [discriminate | assumption | assumption]. }
  assert (Hvd : v <> d).
  { apply (distinct_labels_positions cols0 (py "RevenueGBP") (py "Date"));
      [discriminate | assumption | assumption]. }
  exists r0, t, x, z.
  split; [exact Hr0|]. split; [exact Hcell|].
  subst r. unfold cell_at in Hx, Hz.
  rewrite list_lookup_insert_ne in Hx by congruence.
  rewrite list_lookup_insert_ne in Hz by congruence.
  rewrite Hcell. auto.
Qed.

Lemma Forall2_In_l {A B} (R : A -> B -> Prop) (l : list A) (l' : list B) (a : A) :
  Forall2 R l l' -> In a l -> exists b, In b l' /\ R a b.
Proof.
  induction 1 as [|x y l l' Hxy Hl IH]; simpl; [tauto|].
  intros [->|Ha]; [eauto|]. destruct (IH Ha) as (b & Hb & Hab). eauto.
Qed.

(** X5.  No row with a date is lost: where the cleaning returns (rectangular
    input, no derived label among its cleaned labels), every row of the
    input whose date converts to a timestamp is found in the result, up to
    the equality of [drop_duplicates], in the columns of the input. *)
Theorem cleaned_keeps_dated_rows (parse_date : cell -> option Timestamp)
    (df out : DataFrame) (d : nat) (r0 : row) (t : Timestamp) :
  let cols0 := map clean_column_name (columns df) in
  rectangular df = true ->
  ~ In (py "Year") cols0 -> ~ In (py "Month") cols0 ->
  ~ In (py "Profit_Margin_%") cols0 ->
  Cleaner parse_date df = Ok out ->
  get_loc cols0 (py "Date") = Ok d ->
  In r0 (rows df) ->
  to_datetime parse_date (cell_at d r0) = Time t ->
  exists r', In r' (rows out)
    /\ row_eqb (<[d := Time t]> r0) (firstn (length cols0) r') = true.
Proof.
  intros cols0 Hrect Hy Hm Hg H Hd Hr0 Ht. subst cols0.
  destruct (cleaned_rows_shape parse_date df out Hrect Hy Hm Hg H)
    as (d' & p & v & Hd' & Hp & Hv & Hc & Hrows).
  rewrite Hd in Hd'. injection Hd' as <-.
  assert (Hdl : d < length r0).
  { apply rectangular_spec with (r := r0) in Hrect; [|exact Hr0].
    apply get_loc_lt in Hd. rewrite length_map in Hd. lia. }
  destruct (dated_rows_covers parse_date d (rows df) r0 t Hr0 Hdl Ht)
    as (r & Hr & E).
  destruct (Forall2_In_l _ _ _ _ Hrows Hr)
    as (r' & Hr' & t' & x & z & Hl & _ & _ & _ & ->).
  exists (r ++ [Int (ts_year t'); Str (month_name (ts_month t'));
                Num (mul (div x z) (of_Z 100))]).
  split; [exact Hr'|].
  rewrite <- Hl, firstn_app, Nat.sub_diag, firstn_all. simpl.
  rewrite app_nil_r. exact E.
Qed.

(** ** When the script returns *)

Lemma derived_labels_positions (cols0 : list pystr) :
  ~ In (py "Year") cols0 -> ~ In (py "Month") cols0 ->
  ~ In (py "Profit_Margin_%") cols0 ->
  let cols := cols0 ++ [py "Year"; py "Month"; py "Profit_Margin_%"] in
  get_loc cols (py "Year") = Ok (length cols0)
  /\ get_loc cols (py "Month") = Ok (S (length cols0))
  /\ get_loc cols (py "Profit_Margin_%") = Ok (S (S (length cols0)))
  /\ forall name,
       name <> py "Year" -> name <> py "Month" -> name <> py "Profit_Margin_%" ->
       get_loc cols name = get_loc cols0 name.
Proof.
  intros Hy Hm Hg cols.
  assert (E : cols = ((cols0 ++ [py "Year"]) ++ [py "Month"])
                     ++ [py "Profit_Margin_%"]).
  { unfold cols. rewrite <- !app_assoc. reflexivity. }
  destruct (fresh_labels cols0 Hy Hm Hg) as (Py & Pm & Pg).
  rewrite E. split; [|split; [|split]].
  - apply get_loc_Ok. rewrite !positions_snoc_other by discriminate.
    apply positions_app_new, Py.
  - apply get_loc_Ok. rewrite positions_snoc_other by discriminate.
    rewrite (positions_app_new _ _ Pm), length_app, Nat.add_comm. reflexivity.
  - apply get_loc_Ok. rewrite (positions_app_new _ _ Pg), !length_app. simpl.
    f_equal. lia.
  - intros name Ny Nm Ng. rewrite !get_loc_snoc_other by assumption.
    reflexivity.
Qed.

Lemma groupby_agg_total (keys : list pystr) (val : pystr)
    (agg : list float64 -> float64) (df : DataFrame) (v : nat) :
  (forall k, In k keys -> exists i, get_loc (columns df) k = Ok i) ->
  get_loc (columns df) val = Ok v ->
  (forall r, In r (rows df) -> exists x, as_float (cell_at v r) = Ok x) ->
  exists s, groupby_agg keys val agg df = Ok s.
Proof.
  intros Hk Hv Hx.
  destruct (mapM_total (get_loc (columns df)) keys Hk) as [ks Hks].
  destruct (mapM_total
              (fun r => x ← as_float (cell_at v r);
                        mret (map (fun i => cell_at i r) ks, x)) (rows df))
    as [kx Hkx].
  { intros r Hr. destruct (Hx r Hr) as [x E]. rewrite E. simpl. eauto. }
  exists (aggregate agg kx). unfold groupby_agg.
  rewrite Hks. simpl. rewrite Hv. simpl. rewrite Hkx. reflexivity.
Qed.

Lemma peak_month_total (df : DataFrame) (v : nat) :
  (exists y, get_loc (columns df) (py "Year") = Ok y) ->
  (exists m, get_loc (columns df) (py "Month") = Ok m) ->
  get_loc (columns df) (py "RevenueGBP") = Ok v ->
  (forall r, In r (rows df) -> exists x, as_float (cell_at v r) = Ok x) ->
  exists pm, peak_month df = Ok pm.
Proof.
  intros Hy Hm Hv Hx.
  destruct (groupby_agg_total [py "Year"; py "Month"] (py "RevenueGBP")
              sum_skipna df v) as [s Hs]; try assumption.
  { intros k [<-|[<-|[]]]; assumption. }
  unfold peak_month. rewrite Hs. simpl. eexists. reflexivity.
Qed.

Lemma analysis_total (g : Globals) (c u v m : nat) :
  get_loc (columns (g_df g)) (py "Confectionary") = Ok c ->
  get_loc (columns (g_df g)) (py "CountryUK") = Ok u ->
  (exists y, get_loc (columns (g_df g)) (py "Year") = Ok y) ->
  (exists y, get_loc (columns (g_df g)) (py "Month") = Ok y) ->
  get_loc (columns (g_df g)) (py "RevenueGBP") = Ok v ->
  get_loc (columns (g_df g)) (py "Profit_Margin_%") = Ok m ->
  (forall r, In r (rows (g_df g)) ->
     (exists x, as_float (cell_at v r) = Ok x)
     /\ exists x, as_float (cell_at m r) = Ok x) ->
  exists g', analysis g = Ok g'.
Proof.
  intros Hc Hu Hy Hm Hv Hg Hx.
  destruct (groupby_agg_total [py "Confectionary"] (py "Profit_Margin_%")
              mean_skipna (g_df g) m) as [s1 H1]; try assumption.
  { intros k [<-|[]]. eauto. }
  { intros r Hr. apply Hx, Hr. }
  destruct (groupby_agg_total [py "CountryUK"] (py "RevenueGBP")
              sum_skipna (g_df g) v) as [s2 H2]; try assumption.
  { intros k [<-|[]]. eauto. }
  { intros r Hr. apply Hx, Hr. }
  destruct (peak_month_total (g_df g) v) as [pm H3]; try assumption.
  { intros r Hr. apply Hx, Hr. }
  unfold analysis, assign_avg_margin, avg_margin. rewrite H1. simpl.
  unfold assign_region_revenue, region_revenue. simpl. rewrite H2. simpl.
  unfold assign_peak_month. simpl. rewrite H3. simpl. eauto.
Qed.

(** X6.  The cleaning returns a frame, of no more rows than the input, on
    every rectangular input in which each of the labels Date, ProfitGBP and
    RevenueGBP (after the cleaning of the names) is carried by one column
    and every profit and revenue is a number: an unparseable or missing
    date, a duplicated row or a revenue of 0 does not make it raise. *)
Theorem Cleaner_succeeds (parse_date : cell -> option Timestamp)
    (df : DataFrame) (d p v : nat) :
  let cols0 := map clean_column_name (columns df) in
  rectangular df = true ->
  get_loc cols0 (py "Date") = Ok d ->
  get_loc cols0 (py "ProfitGBP") = Ok p ->
  get_loc cols0 (py "RevenueGBP") = Ok v ->
  (forall r, In r (rows df) ->
     (exists x, as_float (cell_at p r) = Ok x)
     /\ exists z, as_float (cell_at v r) = Ok z) ->
  exists out, Cleaner parse_date df = Ok out
    /\ length (rows out) <= length (rows df).
Proof.
  intros cols0 Hrect Hd Hp Hv Hnum.
  assert (Hpd : p <> d).
  { apply (distinct_labels_positions cols0 (py "ProfitGBP") (py "Date"));
      [discriminate | assumption | assumption]. }
  assert (Hvd : v <> d).
  { apply (distinct_labels_positions cols0 (py "RevenueGBP") (py "Date"));
      [discriminate | assumption | assumption]. }
  destruct (Cleaner_of_dated_rows parse_date df d p v Hrect Hd Hp Hv)
    as (out & Hout & Hlen).
  { intros r Hr.
    destruct (dated_rows_numeric parse_date d p (rows df)
                (fun c => exists x, as_float c = Ok x) Hpd
                (fun r0 H0 => proj1 (Hnum r0 H0)) r Hr) as [x Hx].
    destruct (dated_rows_numeric parse_date d v (rows df)
                (fun c => exists x, as_float c = Ok x) Hvd
                (fun r0 H0 => proj2 (Hnum r0 H0)) r Hr) as [z Hz].
    eauto. }
  exists out. split; [exact Hout|].
  rewrite Hlen. apply dated_rows_length_le.
Qed.

(** X7.  Sections 3 and 5 of the script run to their end, whatever the
    variables held before, on every rectangular sheet whose cleaned labels
    hold Date, Confectionary, CountryUK, ProfitGBP and RevenueGBP once each
    and none of Year, Month and Profit_Margin_%, and whose profits and
    revenues are numbers: the cleaned frame always has what the three
    aggregates read (also when no row is left). *)
Theorem script_succeeds (parse_date : cell -> option Timestamp)
    (g : Globals) (d p v c u : nat) :
  let cols0 := map clean_column_name (columns (g_df g)) in
  rectangular (g_df g) = true ->
  ~ In (py "Year") cols0 -> ~ In (py "Month") cols0 ->
  ~ In (py "Profit_Margin_%") cols0 ->
  get_loc cols0 (py "Date") = Ok d ->
  get_loc cols0 (py "ProfitGBP") = Ok p ->
  get_loc cols0 (py "RevenueGBP") = Ok v ->
  get_loc cols0 (py "Confectionary") = Ok c ->
  get_loc cols0 (py "CountryUK") = Ok u ->
  (forall r, In r (rows (g_df g)) ->
     (exists x, as_float (cell_at p r) = Ok x)
     /\ exists z, as_float (cell_at v r) = Ok z) ->
  exists g', script parse_date g = Ok g'.
Proof.
  intros cols0 Hrect Hy Hm Hg Hd Hp Hv Hc Hu Hnum. subst cols0.
  assert (Hpd : p <> d).
  { eapply (distinct_labels_positions _ (py "ProfitGBP") (py "Date"));
      [discriminate | eassumption | eassumption]. }
  assert (Hvd : v <> d).
  { eapply (distinct_labels_positions _ (py "RevenueGBP") (py "Date"));
      [discriminate | eassumption | eassumption]. }
  destruct (Cleaner_of_dated_rows parse_date (g_df g) d p v Hrect Hd Hp Hv)
    as (out & Hout & _).
  { intros r Hr.
    destruct (dated_rows_numeric parse_date d p (rows (g_df g))
                (fun c => exists x, as_float c = Ok x) Hpd
                (fun r0 H0 => proj1 (Hnum r0 H0)) r Hr) as [x Hx].
    destruct (dated_rows_numeric parse_date d v (rows (g_df g))
                (fun c => exists x, as_float c = Ok x) Hvd
                (fun r0 H0 => proj2 (Hnum r0 H0)) r Hr) as [z Hz].
    eauto. }
  destruct (cleaned_rows_shape parse_date (g_df g) out Hrect Hy Hm Hg Hout)
    as (d' & p' & v' & Hd' & Hp' & Hv' & Hcols & Hrows).
  rewrite Hd in Hd'. injection Hd' as <-.
  rewrite Hp in Hp'. injection Hp' as <-.
  rewrite Hv in Hv'. injection Hv' as <-.
  destruct (derived_labels_positions _ Hy Hm Hg) as (Ly & Lm & Lg & Lo).
  rewrite <- Hcols in Ly, Lm, Lg, Lo.
  unfold script, clean_and_prepare. rewrite Hout. simpl.
  eapply (analysis_total _ c u v); simpl.
  - rewrite Lo by discriminate. exact Hc.
  - rewrite Lo by discriminate. exact Hu.
  - eauto.
  - eauto.
  - rewrite Lo by discriminate. exact Hv.
  - exact Lg.
  - intros r' Hr'.
    destruct (Forall2_In_r _ _ _ _ Hrows Hr')
      as (r & Hr & t & x & z & Hl & Ht & Hx & Hz & ->).
    pose proof (get_loc_lt _ _ _ Hv) as Lv.
    unfold cell_at. split.
    + exists z. rewrite lookup_app_l by lia. exact Hz.
    + eexists. rewrite lookup_app_r by lia. rewrite Hl.
      replace (S (S (length (map clean_column_name (columns (g_df g)))))
               - length (map clean_column_name (columns (g_df g)))) with 2 by lia.
      reflexivity.
Qed.

(** ** Revenue by region *)



(** ** The dashboard traces of a cleaned frame *)

Lemma StronglySorted_filter {A} (R : A -> A -> Prop) (p : A -> bool)
    (l : list A) :
  StronglySorted R l -> StronglySorted R (List.filter p l).
Proof.
  induction 1 as [|a l Hl IH Ha]; simpl; [constructor|].
  destruct (p a); [|exact IH]. constructor; [exact IH|].
  apply List.Forall_forall. intros b Hb. apply filter_In in Hb.
  rewrite List.Forall_forall in Ha. apply Ha, Hb.
Qed.

Lemma Time_cells (d : nat) (l : list row) :
  (forall r, In r l -> exists t, cell_at d r = Time t) ->
  exists ts, map (cell_at d) l = map Time ts.
Proof.
  induction l as [|r l IH]; intros H.
  - exists []. reflexivity.
  - destruct (H r (or_introl eq_refl)) as [t Ht].
    destruct IH as [ts Hts]; [intros r' Hr'; apply H; right; exact Hr'|].
    exists (t :: ts). simpl. rewrite Ht, Hts. reflexivity.
Qed.

(** X9.  On the frame the cleaning returns, every trace of the dashboard
    figure runs forward in time: its x values are timestamps (none is
    missing), in non-decreasing order. *)
Theorem cleaned_traces_in_date_order (parse_date : cell -> option Timestamp)
    (df out : DataFrame) (ts : list Trace) (tr : Trace) :
  Cleaner parse_date df = Ok out ->
  kpi_traces out = Ok ts ->
  In tr ts ->
  exists times : list Timestamp,
    trace_x tr = map Time times
    /\ StronglySorted (fun t u => ts_leb t u = true) times.
Proof.
  intros Hout Hts Htr.
  unfold kpi_traces in Hts. apply bind_Ok in Hts.
  destruct Hts as (conf & _ & Hts). apply mapM_Ok in Hts.
  destruct (Forall2_In_r _ _ _ _ Hts Htr) as (u & _ & Hu).
  apply kpi_trace_Ok in Hu. destruct Hu as (c & d & v & Hc & Hd & Hv & ->).
  simpl.
  destruct (cleaned_sorted_by_date parse_date df out Hout) as (d' & Hd' & Hs).
  rewrite Hd in Hd'. injection Hd' as <-.
  set (sub := List.filter (fun r => cell_equal (cell_at c r) u) (rows out)).
  destruct (Time_cells d sub) as [times Htimes].
  { intros r Hr. apply filter_In in Hr.
    apply (cleaned_date_cells parse_date df out d r Hout Hd), Hr. }
  exists times. split; [exact Htimes|].
  apply (StronglySorted_filter _ (fun r => cell_equal (cell_at c r) u)) in Hs.
  fold sub in Hs.
  apply (StronglySorted_map (cell_at d)
           (fun a b => na_last_leb true a b = true)) in Hs.
  rewrite Htimes in Hs.
  apply (StronglySorted_map Time (fun a b => na_last_leb true a b = true)) in Hs.
  exact Hs.
Qed.

(** ** What the cleaning raises *)











(** ** The peak month of a cleaned frame *)



End MoreProperties.

(** ** The sorting algorithm *)

Lemma NoDup_map_In_inj {A B} (f : A -> B) (l : list A) (a b : A) :
  List.NoDup (map f l) -> In a l -> In b l -> f a = f b -> a = b.
Proof.
  induction l as [|x l IH]; simpl; [tauto|].
  intros Hnd Ha Hb E. apply List.NoDup_cons_iff in Hnd. destruct Hnd as [Hx Hnd].
  destruct Ha as [->|Ha], Hb as [->|Hb].
  - reflexivity.
  - exfalso. apply Hx. rewrite E. apply in_map, Hb.
  - exfalso. apply Hx. rewrite <- E. apply in_map, Ha.
  - apply IH; assumption.
Qed.

Lemma sort_unique (s1 s2 : Sorter) {A} (le : A -> A -> bool) (l : list A) :
  (forall a b, le a b = false -> le b a = true) ->
  (forall a b c, le a b = true -> le b c = true -> le a c = true) ->
  (forall a b, In a l -> In b l -> le a b = true -> le b a = true -> a = b) ->
  List.NoDup l ->
  sort (Sorter := s1) le l = sort (Sorter := s2) le l.
Proof.
  intros Htot Htrans Hanti Hnd.
  apply (sorted_perm_unique le).
  - eapply StronglySorted_strict.
    + apply (sort_sorted (Sorter := s1)); assumption.
    + eapply Permutation_NoDup;
        [symmetry; apply (sort_perm (Sorter := s1)) | exact Hnd].
    + intros a b Ha Hb Hab Hne. split; [exact Hab|].
      destruct (le b a) eqn:Hba; [|reflexivity].
      exfalso. apply Hne. apply Hanti; try assumption.
      * eapply Permutation_in; [apply (sort_perm (Sorter := s1)) | exact Ha].
      * eapply Permutation_in; [apply (sort_perm (Sorter := s1)) | exact Hb].
  - apply (sort_sorted (Sorter := s2)); assumption.
  - etransitivity;
      [apply (sort_perm (Sorter := s1))
      | symmetry; apply (sort_perm (Sorter := s2))].
Qed.

(** X12.  The cleaned frame does not depend on the sorting algorithm behind
    [sort_values] when no two of its rows have the same date: any two
    algorithms then give the same frame, row for row.  (With equal dates
    the order of those rows is the algorithm's.) *)
Theorem Cleaner_sort_independent (s1 s2 : Sorter)
    (parse_date : cell -> option Timestamp) (df out1 out2 : DataFrame) :
  Cleaner (sorter := s1) parse_date df = Ok out1 ->
  Cleaner (sorter := s2) parse_date df = Ok out2 ->
  (forall d, get_loc (columns out1) (py "Date") = Ok d ->
     List.NoDup (map (cell_at d) (rows out1))) ->
  out1 = out2.
Proof.
  intros H1 H2 Hnd.
  apply (Cleaner_Ok (sorter := s1)) in H1.
  apply (Cleaner_Ok (sorter := s2)) in H2.
  destruct H1 as (d & p & v & Hd & Hp & Hv & Hc1 & Hr1).
  destruct H2 as (d' & p' & v' & Hd' & Hp' & Hv' & Hc2 & Hr2).
  rewrite Hd in Hd'. injection Hd' as <-.
  rewrite Hp in Hp'. injection Hp' as <-.
  rewrite Hv in Hv'. injection Hv' as <-.
  destruct (cleaned_Date_positions _ d Hd) as (Dy & Dm & Dg & Hloc).
  rewrite <- Hc1 in Hloc. specialize (Hnd d Hloc).
  set (le := fun r s : row => na_last_leb true (cell_at d r) (cell_at d s)).
  set (X := List.filter (fun r => negb (isna (cell_at d r)))
              (keep_first []
                 (map (fun r => <[d := to_datetime parse_date (cell_at d r)]> r)
                    (rows df)))).
  assert (Hdates : map (cell_at d) (rows out1)
                   = map (cell_at d) (dated_rows (sorter := s1) parse_date d (rows df))).
  { apply mapM_Ok in Hr1. apply Forall2_map_eq.
    eapply Forall2_In_impl; [|exact Hr1]. intros r r' Hin Hrr. simpl in Hrr.
    destruct (dated_rows_In (sorter := s1) _ _ _ _ Hin) as [[t Ht] _].
    unfold cell_at. f_equal.
    eapply derived_row_keeps; try eassumption.
    eapply lookup_lt_Some, Ht. }
  assert (HndX : List.NoDup (map (cell_at d) X)).
  { rewrite Hdates in Hnd.
    eapply Permutation_NoDup; [|exact Hnd].
    apply Permutation_map. apply (sort_perm (Sorter := s1)). }
  assert (E : dated_rows (sorter := s1) parse_date d (rows df)
              = dated_rows (sorter := s2) parse_date d (rows df)).
  { unfold dated_rows. fold X. fold le. apply sort_unique.
    - intros a b. apply na_last_leb_total.
    - intros a b c. apply na_last_leb_trans.
    - intros a b Ha Hb Hab Hba.
      apply (NoDup_map_In_inj (cell_at d) X); try assumption.
      assert (Htime : forall r, In r X -> exists t, cell_at d r = Time t).
      { intros r Hr.
        assert (Hin : In r (dated_rows (sorter := s1) parse_date d (rows df))).
        { unfold dated_rows. apply (sort_In (sorter := s1)). exact Hr. }
        apply (dated_rows_In (sorter := s1)) in Hin.
        destruct Hin as [[t Ht] _]. exists t. apply cell_at_lookup, Ht. }
      destruct (Htime a Ha) as [t Et], (Htime b Hb) as [u Eu].
      unfold le in Hab, Hba. rewrite Et, Eu in *.
      f_equal. apply ts_leb_antisym; assumption.
    - eapply NoDup_map_inv, HndX. }
  rewrite E, Hr2 in Hr1. injection Hr1 as Hr.
  destruct out1 as [c1 r1], out2 as [c2 r2]. simpl in *. congruence.
Qed.

(** ** The further properties on the samples *)

Lemma clean_column_name_fixed_witness :
  clean_column_name (py "Units_Sold") = py "Units_Sold".
Proof.
  apply (clean_column_name_fixed (py "Units_Sold")).
  repeat (constructor; [split; reflexivity|]). constructor.
Defined.


Lemma cleaned_rows_from_input_witness :
  exists d p v,
    get_loc (map clean_column_name (columns Sample.sales)) (py "Date") = Ok d
    /\ get_loc (map clean_column_name (columns Sample.sales)) (py "ProfitGBP")
       = Ok p
    /\ get_loc (map clean_column_name (columns Sample.sales)) (py "RevenueGBP")
       = Ok v
    /\ columns Sample.cleaned_sales
       = map clean_column_name (columns Sample.sales)
         ++ [py "Year"; py "Month"; py "Profit_Margin_%"]
    /\ forall r', In r' (rows Sample.cleaned_sales) ->
         exists r0 t x z,
           In r0 (rows Sample.sales)
           /\ to_datetime Sample.parse_date (cell_at d r0) = Time t
           /\ as_float (cell_at p r0) = Ok x
           /\ as_float (cell_at v r0) = Ok z
           /\ r' = <[d := Time t]> r0
                   ++ [Int (ts_year t); Str (month_name (ts_month t));
                       Num (mul (div x z) (of_Z 100))].
Proof.
  apply (cleaned_rows_from_input Sample.parse_date Sample.sales
           Sample.cleaned_sales).
  - vm_compute. reflexivity.
  - vm_compute. intuition discriminate.
  - vm_compute. intuition discriminate.
  - vm_compute. intuition discriminate.
  - vm_compute. reflexivity.
Defined.

Lemma cleaned_keeps_dated_rows_witness :
  exists r',
    In r' (rows Sample.cleaned_sales)
    /\ row_eqb
         (<[0 := Time (mkTimestamp 2023 January 3 0)]>
            [Str (py "03/01/2023"); Str (py "Chocolate"); Str (py "Wales");
             Sample.num 5; Sample.num 100; Sample.num 40])
         (firstn (length (map clean_column_name (columns Sample.sales))) r')
       = true.
Proof.
  apply (cleaned_keeps_dated_rows Sample.parse_date Sample.sales
           Sample.cleaned_sales 0
           [Str (py "03/01/2023"); Str (py "Chocolate"); Str (py "Wales");
            Sample.num 5; Sample.num 100; Sample.num 40]
           (mkTimestamp 2023 January 3 0)).
  - vm_compute. reflexivity.
  - vm_compute. intuition discriminate.
  - vm_compute. intuition discriminate.
  - vm_compute. intuition discriminate.
  - vm_compute. reflexivity.
  - vm_compute. reflexivity.
  - right. left. reflexivity.
  - vm_compute. reflexivity.
Defined.

Lemma Cleaner_succeeds_witness :
  exists out,
    Cleaner Sample.parse_date Sample.sales = Ok out
    /\ length (rows out) <= length (rows Sample.sales).
Proof.
  apply (Cleaner_succeeds Sample.parse_date Sample.sales 0 5 4).
  - vm_compute. reflexivity.
  - vm_compute. reflexivity.
  - vm_compute. reflexivity.
  - vm_compute. reflexivity.
  - intros r Hr. vm_compute in Hr.
    repeat (destruct Hr as [<-|Hr];
            [split; eexists; vm_compute; reflexivity|]).
    destruct Hr.
Defined.

Lemma script_succeeds_witness :
  exists g', script Sample.parse_date Sample.fresh_globals = Ok g'.
Proof.
  apply (script_succeeds Sample.parse_date Sample.fresh_globals 0 5 4 1 2).
  - vm_compute. reflexivity.
  - vm_compute. intuition discriminate.
  - vm_compute. intuition discriminate.
  - vm_compute. intuition discriminate.
  - vm_compute. reflexivity.
  - vm_compute. reflexivity.
  - vm_compute. reflexivity.
  - vm_compute. reflexivity.
  - vm_compute. reflexivity.
  - intros r Hr. vm_compute in Hr.
    repeat (destruct Hr as [<-|Hr];
            [split; eexists; vm_compute; reflexivity|]).
    destruct Hr.
Defined.


Lemma cleaned_traces_in_date_order_witness :
  exists times : list Timestamp,
    trace_x (nth 0 Sample.sales_traces (mkTrace NaT [] []))
    = map Time times
    /\ StronglySorted (fun t u => ts_leb t u = true) times.
Proof.
  apply (cleaned_traces_in_date_order Sample.parse_date Sample.sales
           Sample.cleaned_sales Sample.sales_traces).
  - vm_compute. reflexivity.
  - vm_compute. reflexivity.
  - vm_compute. left. reflexivity.
Defined.



Lemma Cleaner_sort_independent_witness :
  Sample.cleaned_sales
  = Sample.frame_of
      (Cleaner (sorter := Sample.reverse_sorter) Sample.parse_date Sample.sales).
Proof.
  apply (Cleaner_sort_independent stable_sorter Sample.reverse_sorter
           Sample.parse_date Sample.sales).
  - vm_compute. reflexivity.
  - vm_compute. reflexivity.
  - intros d Hd. vm_compute in Hd. injection Hd as <-. vm_compute.
    repeat (constructor; [simpl; intuition discriminate|]). constructor.
Defined.
